(** * tp2c2025/main.js: a flyable airplane over a runway

    A shallow embedding of [src/tp2c2025/main.js].  The script builds a
    three.js scene, attaches an [AirplaneController] to the plane, and then
    reacts to three kinds of browser callbacks: [resize], [keydown] and the
    display-refresh callback [animate].

    - JavaScript numbers are IEEE-754 binary64 values; they are modelled by
      [spec_float] with precision 53 and maximal exponent 1024, so that
      [*], [/], [<], [Math.min] and [|0] round and compare as the engine does.
    - The script mutates the renderer, the camera, the DOM and the
      controller; this is modelled by a state monad [JS] over a record
      [World], which also logs every call that leaves the script.
    - [AirplaneController] lives in [airplaneController.js], which is not part
      of the sources at hand; its contract is modelled in [Module Controller]. *)

From Stdlib Require Import ZArith Bool List String Ascii Lia.
From Stdlib Require Import DecimalString.
From Stdlib Require Import Floats.SpecFloat.
Import ListNotations.

Local Open Scope Z_scope.

(** ** JavaScript numbers *)

Module JSNumber.

Definition prec : Z := 53.
Definition emax : Z := 1024.

Definition number : Type := spec_float.

(** A [spec_float] denotes a binary64 value when its mantissa is canonical
    and its exponent in range. *)
Definition is_number (x : number) : bool := valid_binary prec emax x.

Definition is_nan (x : number) : bool :=
  match x with S754_nan => true | _ => false end.

Definition NaN : number := S754_nan.
Definition pos_zero : number := S754_zero false.
Definition neg_zero : number := S754_zero true.
Definition pos_infinity : number := S754_infinity false.

(** The operators [*] and [/], and the comparisons [<], [<=], [==]. *)
Definition mul : number -> number -> number := SFmul prec emax.
Definition div : number -> number -> number := SFdiv prec emax.
Definition ltb : number -> number -> bool := SFltb.
Definition leb : number -> number -> bool := SFleb.
Definition eqb : number -> number -> bool := SFeqb.

(** An integer literal, and a decimal literal [m / 10^k] (correctly rounded,
    since [m] and [10^k] are exact for the literals of the script). *)
Definition of_int (z : Z) : number := binary_normalize prec emax z 0 false.
Definition lit (m : Z) (k : nat) : number :=
  div (of_int m) (of_int (10 ^ Z.of_nat k)).

(** [Math.min(a, b, ...)]: NaN is contagious, and [-0] is below [+0]. *)
Definition min_step (lowest : number) (x : number) : number :=
  if is_nan lowest then NaN
  else if is_nan x then NaN
  else match x, lowest with
       | S754_zero true, S754_zero false => x
       | _, _ => if ltb x lowest then x else lowest
       end.

Definition Math_min (args : list number) : number :=
  fold_left min_step args pos_infinity.

(** The integer part of a number, rounding toward zero (0 for NaN and the
    infinities). *)
Definition truncate (x : number) : Z :=
  match x with
  | S754_finite s m e =>
      let a := match e with
               | Zneg p => Z.shiftr (Zpos m) (Zpos p)
               | _ => Z.shiftl (Zpos m) e
               end in
      if s then - a else a
  | _ => 0
  end.

(** The abstract operation ToInt32 and the operator [|] on its results. *)
Definition ToInt32 (x : number) : Z :=
  let i := truncate x mod 2 ^ 32 in
  if 2 ^ 31 <=? i then i - 2 ^ 32 else i.

Definition bitor (x y : number) : Z := Z.lor (ToInt32 x) (ToInt32 y).

(** [Math.PI], the binary64 value 0x400921FB54442D18. *)
Definition Math_PI : number := S754_finite false 7074237752028440 (-51).

End JSNumber.

Import JSNumber.

(** ** Numbers to strings *)

Module NumberFormat.

Local Open Scope string_scope.

(** Decimal digits of a natural number; ["0"] for zero. *)
Definition digits_of_N (n : N) : string :=
  DecimalString.NilZero.string_of_uint (N.to_uint n).

(** The string of an integral number, as a template literal prints the
    result of [|]. *)
Definition string_of_int32 (z : Z) : string :=
  DecimalString.NilZero.string_of_int (Z.to_int z).

Fixpoint zeros (n : nat) : string :=
  match n with
  | O => EmptyString
  | S n' => String "0" (zeros n')
  end.

(** The built-ins that are not spelled out here. *)
Class Host : Type := {
  (** [Number::toString] on values of magnitude at least 10^21. *)
  Number_toString : number -> string
}.

(** The magnitude [m * 2^e] of a finite number, as a fraction. *)
Definition magnitude (x : number) : Z * Z :=
  match x with
  | S754_finite _ m e =>
      match e with
      | Zneg p => (Zpos m, 2 ^ Zpos p)
      | _ => (Zpos m * 2 ^ e, 1)
      end
  | _ => (0, 1)
  end.

(** [Number.prototype.toFixed]: the integer [n] with [n / 10^f] nearest to
    the number, the larger one on a tie, printed with [f] decimals. *)
Definition toFixed `{Host} (x : number) (f : nat) : string :=
  match x with
  | S754_nan => "NaN"
  | S754_infinity false => "Infinity"
  | S754_infinity true => "-Infinity"
  | _ =>
      let '(num, den) := magnitude x in
      let s := match x with
               | S754_finite true _ _ => "-"
               | _ => EmptyString
               end in
      if (10 ^ 21 * den <=? num)%Z then s ++ Number_toString (SFabs x)
      else
        let n := (2 * num * 10 ^ Z.of_nat f + den) / (2 * den) in
        let m := digits_of_N (Z.to_N n) in
        match f with
        | O => s ++ m
        | _ =>
            let m := zeros (S f - String.length m) ++ m in
            let k := String.length m in
            s ++ substring 0 (k - f) m ++ "." ++ substring (k - f) f m
        end
  end.

(** A text is free of markup when it holds none of [<], [>] and [&]:
    assigned to [innerHTML], it shows as it is written. *)
Fixpoint markup_free (s : string) : bool :=
  match s with
  | EmptyString => true
  | String c rest =>
      negb (Ascii.eqb c "<" || Ascii.eqb c ">" || Ascii.eqb c "&")
      && markup_free rest
  end.

End NumberFormat.

Import NumberFormat.

(** ** three.js values used by the script *)

Module THREE.

Record Vector3 : Type := { x : number; y : number; z : number }.

Inductive RotationOrder : Type := XYZ | YXZ | ZXY | ZYX | YZX | XZY.

Record Euler : Type := {
  ex : number; ey : number; ez : number; order : RotationOrder
}.

Record BoxGeometry : Type := {
  width : number; height : number; depth : number
}.

Record MeshStandardMaterial : Type := {
  color : Z; roughness : number; metalness : number
}.

Record Mesh : Type := {
  geometry : BoxGeometry;
  material : MeshStandardMaterial;
  position : Vector3;
  castShadow : bool;
  receiveShadow : bool
}.

(** The projection matrix of a camera is a function of its frustum
    parameters; it is kept as the parameters it was last computed from. *)
Record Frustum : Type := {
  f_fov : number; f_aspect : number; f_near : number; f_far : number
}.

Record PerspectiveCamera : Type := {
  fov : number;
  aspect : number;
  near : number;
  far : number;
  projectionMatrix : Frustum;
  mount : Vector3;
  target : Vector3
}.

Definition frustum (c : PerspectiveCamera) : Frustum :=
  {| f_fov := fov c; f_aspect := aspect c; f_near := near c; f_far := far c |}.

Definition updateProjectionMatrix (c : PerspectiveCamera) : PerspectiveCamera :=
  {| fov := fov c; aspect := aspect c; near := near c; far := far c;
     projectionMatrix := frustum c;
     mount := mount c; target := target c |}.

Definition set_aspect (a : number) (c : PerspectiveCamera) : PerspectiveCamera :=
  {| fov := fov c; aspect := a; near := near c; far := far c;
     projectionMatrix := projectionMatrix c;
     mount := mount c; target := target c |}.

(** [new THREE.PerspectiveCamera(fov, aspect, near, far)] computes the
    projection matrix once; the camera sits at the origin of its parent. *)
Definition new_PerspectiveCamera (fv a n f : number) : PerspectiveCamera :=
  updateProjectionMatrix
    {| fov := fv; aspect := a; near := n; far := f;
       projectionMatrix := {| f_fov := fv; f_aspect := a; f_near := n; f_far := f |};
       mount := {| x := of_int 0; y := of_int 0; z := of_int 0 |};
       target := {| x := of_int 0; y := of_int 0; z := of_int (-1) |} |}.

Record WebGLRenderer : Type := {
  pixelRatio : number;
  size : number * number
}.

(** [THREE.MathUtils.degToRad]. *)
Definition DEG2RAD : number := div Math_PI (of_int 180).
Definition degToRad (degrees : number) : number := mul degrees DEG2RAD.

(** What the scene holds.  The camera is a child of the plane and the plane
    is handed to the controller: both are shared objects, stored once in
    the world and referred to from the scene graph. *)
#[local] Set Warnings "-register-all".
Inductive Object3D : Type :=
| AmbientLight (color : Z) (intensity : number)
| DirectionalLight (color : Z) (intensity : number) (position : Vector3)
| GridHelper (size : number) (divisions : number)
| MeshObject (m : Mesh)
| Group (children : list Object3D)
| CameraRef.

Record Scene : Type := {
  background : Z;
  children : list Object3D
}.

End THREE.

(** ** The airplane controller (contract) *)

Module Controller.

Import THREE.

(** The tuning constants handed to the constructor. *)
Record Options : Type := {
  maxSpeed : number;
  accelResponse : number;
  drag : number;
  pitchLimit : number;
  bankLimit : number;
  pitchCmdRateDeg : number;
  bankCmdRateDeg : number;
  pitchResponse : number;
  bankResponse : number;
  pitchCentering : number;
  bankCentering : number;
  turnRateGain : number;
  yawTaxiRate : number;
  stallSpeed : number;
  ctrlVRange : number;
  minY : number
}.

(** The argument of [setTransform]. *)
Record Pose : Type := {
  position : Vector3;
  euler : Euler;
  throttle : number
}.

(** The result of [getStatus]. *)
Record Status : Type := {
  speed : number;
  pitchDeg : number;
  bankDeg : number
}.

(** Modelled from the spec: the state of [AirplaneController]
    ([airplaneController.js] is missing).  The plane transform (position,
    orientation, throttle) is owned by the controller; the configuration is
    supplied once at construction. *)
Record State : Type := {
  options : Options;
  pose : Pose;
  airspeed : number
}.

(** Modelled from the spec: the parts of [AirplaneController] about which
    the spec gives no detail ([airplaneController.js] is missing): how one
    step integrates throttle, pitch, bank and speed, and how the status
    snapshot is derived from the state. *)
Class Dynamics : Type := {
  integrate : number -> State -> State;
  status_of : State -> Status
}.

Definition origin : Vector3 := {| x := of_int 0; y := of_int 0; z := of_int 0 |}.

(** Modelled from the spec: the constructor of [AirplaneController]
    ([airplaneController.js] is missing), which stores the configuration;
    the plane starts where [createPlane] leaves it, at rest. *)
Definition create (o : Options) : State :=
  {| options := o;
     pose := {| position := origin;
                euler := {| ex := of_int 0; ey := of_int 0; ez := of_int 0;
                            order := XYZ |};
                throttle := of_int 0 |};
     airspeed := of_int 0 |}.

(** Modelled from the spec: [setTransform] of [AirplaneController]
    ([airplaneController.js] is missing): "resets state instantaneously". *)
Definition setTransform (p : Pose) (st : State) : State :=
  {| options := options st; pose := p; airspeed := airspeed st |}.

(** Modelled from the spec: the ground-height clamp of [AirplaneController]
    ([airplaneController.js] is missing).  The spec says that the minimum
    height is enforced, and the model takes it at its word: a height that
    is at least the minimum is kept, and any other one (a lower one, or
    NaN) is replaced by the minimum. *)
Definition enforce_min_height (floor : number) (p : Pose) : Pose :=
  let pos := position p in
  {| position := {| x := x pos;
                    y := if leb floor (y pos) then y pos else floor;
                    z := z pos |};
     euler := euler p;
     throttle := throttle p |}.

(** Modelled from the spec: [update] of [AirplaneController]
    ([airplaneController.js] is missing): it advances the simulation by
    [dt] seconds and "enforces minimum height"; the configuration is
    "immutable thereafter". *)
Definition update `{Dynamics} (dt : number) (st : State) : State :=
  let st' := integrate dt st in
  {| options := options st;
     pose := enforce_min_height (minY (options st)) (pose st');
     airspeed := airspeed st' |}.

(** Modelled from the spec: [getStatus] and [getEnginePower] of
    [AirplaneController] ([airplaneController.js] is missing): the
    "current speed and orientation angles for display", and the "current
    throttle fraction". *)
Definition getStatus `{Dynamics} (st : State) : Status := status_of st.
Definition getEnginePower (st : State) : number := throttle (pose st).

Definition height (st : State) : number := y (position (pose st)).

End Controller.

(** ** The world the script runs in *)

Module Browser.

Record Window : Type := {
  innerWidth : number;
  innerHeight : number;
  devicePixelRatio : number
}.

Record KeyboardEvent : Type := { code : string }.

(** [THREE.Clock]: the first [getDelta] starts the clock and answers 0;
    afterwards it answers the seconds elapsed since the previous call,
    which only the environment knows. *)
Record Clock : Type := {
  running : bool;
  elapsed : number
}.

(** The functions of the script that are handed to the browser. *)
Inductive Callback : Type := CbResize | CbKeydown | CbAnimate.

(** The calls that leave the script, in the order they are made. *)
Inductive Call : Type :=
| Renderer_setPixelRatio (r : number)
| Renderer_setSize (w h : number)
| Renderer_render
| Body_appendChild
| Camera_updateProjectionMatrix
| Controller_setTransform (p : Controller.Pose)
| Controller_update (dt : number)
| Controller_getStatus
| Controller_getEnginePower
| Clock_getDelta
| Element_setInnerHTML (html : string)
| Window_addEventListener (type : string) (cb : Callback)
| Window_requestAnimationFrame (cb : Callback).

Record World : Type := {
  window : Window;
  renderer : THREE.WebGLRenderer;
  scene : THREE.Scene;
  camera : THREE.PerspectiveCamera;
  controller : Controller.State;
  (** [hudEl]: [None] when [getElementById] answered null, else the
      element, that is its [innerHTML]. *)
  hudEl : option string;
  clock : Clock;
  listeners : list (string * Callback);
  frame_requests : list Callback;
  calls : list Call
}.

Definition set_window (v : Window) (w : World) : World :=
  {| window := v; renderer := renderer w; scene := scene w;
     camera := camera w; controller := controller w; hudEl := hudEl w;
     clock := clock w; listeners := listeners w;
     frame_requests := frame_requests w; calls := calls w |}.

Definition set_renderer (v : THREE.WebGLRenderer) (w : World) : World :=
  {| window := window w; renderer := v; scene := scene w;
     camera := camera w; controller := controller w; hudEl := hudEl w;
     clock := clock w; listeners := listeners w;
     frame_requests := frame_requests w; calls := calls w |}.

Definition set_camera (v : THREE.PerspectiveCamera) (w : World) : World :=
  {| window := window w; renderer := renderer w; scene := scene w;
     camera := v; controller := controller w; hudEl := hudEl w;
     clock := clock w; listeners := listeners w;
     frame_requests := frame_requests w; calls := calls w |}.

Definition set_controller (v : Controller.State) (w : World) : World :=
  {| window := window w; renderer := renderer w; scene := scene w;
     camera := camera w; controller := v; hudEl := hudEl w;
     clock := clock w; listeners := listeners w;
     frame_requests := frame_requests w; calls := calls w |}.

Definition set_hudEl (v : option string) (w : World) : World :=
  {| window := window w; renderer := renderer w; scene := scene w;
     camera := camera w; controller := controller w; hudEl := v;
     clock := clock w; listeners := listeners w;
     frame_requests := frame_requests w; calls := calls w |}.

Definition set_clock (v : Clock) (w : World) : World :=
  {| window := window w; renderer := renderer w; scene := scene w;
     camera := camera w; controller := controller w; hudEl := hudEl w;
     clock := v; listeners := listeners w;
     frame_requests := frame_requests w; calls := calls w |}.

Definition set_listeners (v : list (string * Callback)) (w : World) : World :=
  {| window := window w; renderer := renderer w; scene := scene w;
     camera := camera w; controller := controller w; hudEl := hudEl w;
     clock := clock w; listeners := v;
     frame_requests := frame_requests w; calls := calls w |}.

Definition set_frame_requests (v : list Callback) (w : World) : World :=
  {| window := window w; renderer := renderer w; scene := scene w;
     camera := camera w; controller := controller w; hudEl := hudEl w;
     clock := clock w; listeners := listeners w;
     frame_requests := v; calls := calls w |}.

Definition set_calls (v : list Call) (w : World) : World :=
  {| window := window w; renderer := renderer w; scene := scene w;
     camera := camera w; controller := controller w; hudEl := hudEl w;
     clock := clock w; listeners := listeners w;
     frame_requests := frame_requests w; calls := v |}.

(** *** Computations: state, and exceptions *)

Inductive Error : Type := TypeError (message : string).

Inductive Completion (A : Type) : Type :=
| Normal (a : A)
| Throw (e : Error).
Arguments Normal {A} a.
Arguments Throw {A} e.

Definition JS (A : Type) : Type := World -> Completion A * World.

Definition ret {A : Type} (a : A) : JS A := fun w => (Normal a, w).

Definition bind {A B : Type} (m : JS A) (f : A -> JS B) : JS B :=
  fun w =>
    match m w with
    | (Normal a, w') => f a w'
    | (Throw e, w') => (Throw e, w')
    end.

Definition throw {A : Type} (e : Error) : JS A := fun w => (Throw e, w).
Definition gets {A : Type} (f : World -> A) : JS A := fun w => (Normal (f w), w).
Definition modify (f : World -> World) : JS unit := fun w => (Normal tt, f w).
Definition log (c : Call) : JS unit := modify (fun w => set_calls (calls w ++ [c]) w).

Definition exec {A : Type} (m : JS A) (w : World) : World := snd (m w).
Definition completion {A : Type} (m : JS A) (w : World) : Completion A := fst (m w).



End Browser.

Declare Scope js_scope.
Delimit Scope js_scope with js.
Notation "x <- c1 ;; c2" := (Browser.bind c1 (fun x => c2))
  (at level 100, c1 at next level, right associativity) : js_scope.
Notation "c1 ;; c2" := (Browser.bind c1 (fun _ => c2))
  (at level 100, right associativity) : js_scope.

(** ** The script [main.js] *)

Module Main.

Import THREE Browser.
Local Open Scope js_scope.
Local Open Scope string_scope.

(** *** Scene set-up (lines 10 to 72) *)

Definition vec (a b c : number) : Vector3 := {| x := a; y := b; z := c |}.

Definition box (w h d : number) : BoxGeometry :=
  {| width := w; height := h; depth := d |}.

Definition amb : Object3D := AmbientLight 0xffffff (lit 6 1).

Definition dir : Object3D :=
  DirectionalLight 0xffffff (lit 8 1) (vec (of_int 5) (of_int 10) (of_int 7)).

Definition grid : Object3D := GridHelper (of_int 1000) (of_int 100).

Definition runwayMat : MeshStandardMaterial :=
  {| color := 0x666666; roughness := lit 9 1; metalness := lit 0 1 |}.

Definition runway : Mesh :=
  {| geometry := box (of_int 30) (lit 5 1) (of_int 600);
     material := runwayMat;
     position := vec (of_int 0) (of_int 0) (of_int 0);
     castShadow := false;
     receiveShadow := true |}.

(** [createPlane]: four boxes, forward is -Z. *)
Definition matBody : MeshStandardMaterial :=
  {| color := 0x99aacc; roughness := lit 6 1; metalness := lit 1 1 |}.
Definition matWing : MeshStandardMaterial :=
  {| color := 0xFF3333; roughness := lit 5 1; metalness := lit 1 1 |}.
Definition matTail : MeshStandardMaterial :=
  {| color := 0xff2222; roughness := lit 5 1; metalness := lit 1 1 |}.
Definition matRud : MeshStandardMaterial :=
  {| color := 0xff0000; roughness := lit 5 1; metalness := lit 1 1 |}.

Definition part (g : BoxGeometry) (m : MeshStandardMaterial) (p : Vector3) : Mesh :=
  {| geometry := g; material := m; position := p;
     castShadow := true; receiveShadow := true |}.

Definition fuselage : Mesh :=
  part (box (lit 12 1) (lit 10 1) (lit 80 1)) matBody
       (vec (of_int 0) (lit 12 1) (of_int 0)).
Definition wings : Mesh :=
  part (box (lit 100 1) (lit 14 2) (lit 22 1)) matWing
       (vec (of_int 0) (lit 12 1) (SFopp (lit 5 1))).
Definition tailWings : Mesh :=
  part (box (lit 36 1) (lit 12 2) (lit 12 1)) matTail
       (vec (of_int 0) (lit 12 1) (lit 32 1)).
Definition rudder : Mesh :=
  part (box (lit 18 2) (lit 14 1) (lit 12 1)) matRud
       (vec (of_int 0) (lit 19 1) (lit 32 1)).

Definition createPlane : list Object3D :=
  [MeshObject fuselage; MeshObject wings; MeshObject tailWings; MeshObject rudder].

(** The plane, with the camera mounted on it (behind and above). *)
Definition plane : Object3D := Group (createPlane ++ [CameraRef]).

Definition the_scene : Scene :=
  {| background := 0x0b0e15;
     children := [amb; dir; grid; MeshObject runway; plane] |}.

Definition mounted_camera (win : Window) : PerspectiveCamera :=
  let c := new_PerspectiveCamera (of_int 60)
             (div (innerWidth win) (innerHeight win)) (lit 1 1) (of_int 10000) in
  {| fov := fov c; aspect := aspect c; near := near c; far := far c;
     projectionMatrix := projectionMatrix c;
     mount := vec (of_int 0) (of_int 10) (of_int 20);
     target := vec (of_int 0) (of_int 0) (of_int 0) |}.

(** *** The controller configuration (lines 75 to 100) *)

Definition controller_options : Controller.Options :=
  {| Controller.maxSpeed := of_int 120;
     Controller.accelResponse := lit 22 1;
     Controller.drag := lit 15 3;
     Controller.pitchLimit := degToRad (of_int 45);
     Controller.bankLimit := degToRad (of_int 60);
     Controller.pitchCmdRateDeg := of_int 60;
     Controller.bankCmdRateDeg := of_int 90;
     Controller.pitchResponse := lit 50 1;
     Controller.bankResponse := lit 60 1;
     Controller.pitchCentering := lit 10 1;
     Controller.bankCentering := lit 15 1;
     Controller.turnRateGain := lit 13 1;
     Controller.yawTaxiRate := mul Math_PI (lit 14 1);
     Controller.stallSpeed := of_int 12;
     Controller.ctrlVRange := of_int 25;
     Controller.minY := of_int 2 |}.

(** The argument of [setTransform] at start-up (lines 103 to 107). *)
Definition startup_pose : Controller.Pose :=
  {| Controller.position := vec (of_int 0) (of_int 2) (of_int 0);
     Controller.euler := {| ex := of_int 0; ey := of_int 0; ez := of_int 0;
                            order := YXZ |};
     Controller.throttle := of_int 0 |}.

(** The world once every [const] of the script is bound, before any of its
    calls: [win] is the browser window and [hud] what
    [document.getElementById('hud')] finds.  A fresh renderer has pixel
    ratio 1 and the size of an empty canvas. *)
Definition boot (win : Window) (hud : option string) : World :=
  {| window := win;
     renderer := {| pixelRatio := of_int 1; size := (of_int 300, of_int 150) |};
     scene := the_scene;
     camera := mounted_camera win;
     controller := Controller.create controller_options;
     hudEl := hud;
     clock := {| running := false; elapsed := of_int 0 |};
     listeners := [];
     frame_requests := [];
     calls := [] |}.

Section Script.

Context {host : Host} {dynamics : Controller.Dynamics}.

(** *** Calls on the objects of the world *)

Definition renderer_setPixelRatio (r : number) : JS unit :=
  modify (fun w => set_renderer
            {| pixelRatio := r; size := size (renderer w) |} w) ;;
  log (Renderer_setPixelRatio r).

Definition renderer_setSize (wd ht : number) : JS unit :=
  modify (fun w => set_renderer
            {| pixelRatio := pixelRatio (renderer w); size := (wd, ht) |} w) ;;
  log (Renderer_setSize wd ht).

Definition renderer_render : JS unit := log Renderer_render.

Definition body_appendChild : JS unit := log Body_appendChild.

Definition camera_updateProjectionMatrix : JS unit :=
  modify (fun w => set_camera (updateProjectionMatrix (camera w)) w) ;;
  log Camera_updateProjectionMatrix.

Definition controller_setTransform (p : Controller.Pose) : JS unit :=
  modify (fun w => set_controller (Controller.setTransform p (controller w)) w) ;;
  log (Controller_setTransform p).

Definition controller_update (dt : number) : JS unit :=
  modify (fun w => set_controller (Controller.update dt (controller w)) w) ;;
  log (Controller_update dt).

Definition controller_getStatus : JS Controller.Status :=
  log Controller_getStatus ;;
  gets (fun w => Controller.getStatus (controller w)).

Definition controller_getEnginePower : JS number :=
  log Controller_getEnginePower ;;
  gets (fun w => Controller.getEnginePower (controller w)).

Definition clock_getDelta : JS number :=
  log Clock_getDelta ;;
  c <- gets clock ;;
  if running c then ret (elapsed c)
  else
    modify (set_clock {| running := true; elapsed := elapsed c |}) ;;
    ret (of_int 0).

(** Assigning to [innerHTML] of a null reference throws. *)
Definition element_set_innerHTML (html : string) : JS unit :=
  el <- gets hudEl ;;
  match el with
  | None => throw (TypeError "Cannot set properties of null")
  | Some _ =>
      modify (set_hudEl (Some html)) ;;
      log (Element_setInnerHTML html)
  end.

Definition window_addEventListener (type : string) (cb : Callback) : JS unit :=
  modify (fun w => set_listeners (listeners w ++ [(type, cb)]) w) ;;
  log (Window_addEventListener type cb).

Definition requestAnimationFrame (cb : Callback) : JS unit :=
  modify (fun w => set_frame_requests (frame_requests w ++ [cb]) w) ;;
  log (Window_requestAnimationFrame cb).

(** *** HUD (lines 110 to 118) *)

(** The degree sign, code unit U+00B0. *)
Definition degree : string := String (ascii_of_nat 176) EmptyString.

(** [(controller.getEnginePower()*100)|0], as a function of the engine
    power. *)
Definition throttle_percent (power : number) : Z :=
  bitor (mul power (of_int 100)) (of_int 0).

(** What the HUD shows, in the words of the specification: three lines
    of text, separated by line breaks, made of the speed with one
    decimal, the throttle as a truncated percentage, and the pitch and
    bank angles in whole degrees. *)
Definition hud_lines (s : Controller.Status) (power : number) : list string :=
  ["Vel: " ++ toFixed (Controller.speed s) 1 ++ " u/s";
   "Throttle: " ++ string_of_int32 (throttle_percent power) ++ "%";
   "Pitch/Bank: " ++ toFixed (Controller.pitchDeg s) 0 ++ degree ++ " / "
     ++ toFixed (Controller.bankDeg s) 0 ++ degree].

Definition hud_text (s : Controller.Status) (power : number) : string :=
  String.concat "<br>" (hud_lines s power).

Definition updateHUD : JS unit :=
  el <- gets hudEl ;;
  match el with
  | None => ret tt
  | Some _ =>
      s <- controller_getStatus ;;
      power <- controller_getEnginePower ;;
      element_set_innerHTML
        (("Vel: " ++ toFixed (Controller.speed s) 1 ++ " u/s<br>") ++
         ("Throttle: " ++ string_of_int32 (bitor (mul power (of_int 100)) (of_int 0))
            ++ "%<br>") ++
         ("Pitch/Bank: " ++ toFixed (Controller.pitchDeg s) 0 ++ degree ++ " / "
            ++ toFixed (Controller.bankDeg s) 0 ++ degree))
  end.

(** *** Resize (lines 121 to 125) *)

Definition resize_handler : JS unit :=
  win <- gets window ;;
  modify (fun w => set_camera
            (set_aspect (div (innerWidth win) (innerHeight win)) (camera w)) w) ;;
  camera_updateProjectionMatrix ;;
  win <- gets window ;;
  renderer_setSize (innerWidth win) (innerHeight win).

(** *** Key R: back to the take-off situation (lines 128 to 136) *)

Definition keydown_handler (e : KeyboardEvent) : JS unit :=
  if String.eqb (code e) "KeyR" then
    controller_setTransform
      {| Controller.position := vec (of_int 0) (of_int 2) (of_int 0);
         Controller.euler := {| ex := of_int 0; ey := of_int 0; ez := of_int 0;
                                order := YXZ |};
         Controller.throttle := of_int 0 |}
  else ret tt.

(** *** Animation (lines 139 to 147) *)

Definition animate : JS unit :=
  delta <- clock_getDelta ;;
  let dt := Math_min [lit 5 2; delta] in
  controller_update dt ;;
  updateHUD ;;
  renderer_render ;;
  requestAnimationFrame CbAnimate.

(** *** The statements of the script, top to bottom *)

Definition main : JS unit :=
  win <- gets window ;;
  renderer_setPixelRatio (Math_min [devicePixelRatio win; of_int 2]) ;;
  win <- gets window ;;
  renderer_setSize (innerWidth win) (innerHeight win) ;;
  body_appendChild ;;
  controller_setTransform startup_pose ;;
  window_addEventListener "resize" CbResize ;;
  window_addEventListener "keydown" CbKeydown ;;
  animate.

(** *** The browser calling back *)

Inductive BrowserEvent : Type :=
| EvResize (wd ht dpr : number)
| EvKeydown (e : KeyboardEvent)
| EvAnimationFrame (seconds : number).

Definition run_callback (ev : BrowserEvent) (cb : Callback) : JS unit :=
  match cb, ev with
  | CbResize, _ => resize_handler
  | CbKeydown, EvKeydown e => keydown_handler e
  | CbKeydown, _ => ret tt
  | CbAnimate, _ => animate
  end.

Fixpoint run_all (ev : BrowserEvent) (cbs : list Callback) : JS unit :=
  match cbs with
  | [] => ret tt
  | cb :: rest => run_callback ev cb ;; run_all ev rest
  end.

Definition listening (type : string) (w : World) : list Callback :=
  map snd (filter (fun l => String.eqb (fst l) type) (listeners w)).

(** One turn of the event loop.  A resize changes the window (its size
    and, on a zoom or a move to another display, its device pixel ratio),
    then runs the resize listeners; a refresh of the display lets the
    clock advance, then runs the callbacks requested for this frame. *)
Definition dispatch (ev : BrowserEvent) : JS unit :=
  match ev with
  | EvResize wd ht dpr =>
      modify (fun w => set_window
                {| innerWidth := wd; innerHeight := ht;
                   devicePixelRatio := dpr |} w) ;;
      cbs <- gets (listening "resize") ;;
      run_all ev cbs
  | EvKeydown _ =>
      cbs <- gets (listening "keydown") ;;
      run_all ev cbs
  | EvAnimationFrame seconds =>
      modify (fun w => set_clock
                {| running := running (clock w); elapsed := seconds |} w) ;;
      cbs <- gets frame_requests ;;
      modify (set_frame_requests []) ;;
      run_all ev cbs
  end.

(** The worlds the page can be in: after the script has run, and after
    any number of callbacks. *)
Inductive Reachable : World -> Prop :=
| Reachable_start (win : Window) (hud : option string) :
    Reachable (exec main (boot win hud))
| Reachable_step (w : World) (ev : BrowserEvent) :
    Reachable w -> Reachable (exec (dispatch ev) w).

(** The world after a sequence of events. *)
Fixpoint after (evs : list BrowserEvent) (w : World) : World :=
  match evs with
  | [] => w
  | ev :: rest => after rest (exec (dispatch ev) w)
  end.

(** The calls made by a computation started in [w]. *)
Definition calls_of {A : Type} (m : JS A) (w : World) : list Call :=
  skipn (List.length (calls w)) (calls (exec m w)).

End Script.

(** The [dt] arguments of the [update] calls in a list of calls. *)
Fixpoint update_steps (cs : list Call) : list number :=
  match cs with
  | [] => []
  | Controller_update dt :: rest => dt :: update_steps rest
  | _ :: rest => update_steps rest
  end.

End Main.

(** ** An instance to run the model on *)

Module Sample.

Import THREE Browser.

(** A host for the examples; none of them prints a value of magnitude
    10^21 or more, so that its answer is never looked at. *)
#[export] Instance host : Host :=
  {| Number_toString := fun _ => "1e+21"%string |}.

(** A plane in a steady dive: each step takes ten units of height; the
    status reads the speed and two of the angles as they are. *)
#[export] Instance dive : Controller.Dynamics :=
  {| Controller.integrate := fun _ st =>
       let p := Controller.pose st in
       let pos := Controller.position p in
       {| Controller.options := Controller.options st;
          Controller.pose :=
            {| Controller.position :=
                 {| x := x pos;
                    y := SFsub prec emax (y pos) (of_int 10);
                    z := z pos |};
               Controller.euler := Controller.euler p;
               Controller.throttle := Controller.throttle p |};
          Controller.airspeed := Controller.airspeed st |};
     Controller.status_of := fun st =>
       {| Controller.speed := Controller.airspeed st;
          Controller.pitchDeg := ex (Controller.euler (Controller.pose st));
          Controller.bankDeg := ez (Controller.euler (Controller.pose st)) |} |}.

(** A controller that has lost its height: each step yields NaN for it. *)
Definition lost : Controller.Dynamics :=
  {| Controller.integrate := fun _ st =>
       let p := Controller.pose st in
       let pos := Controller.position p in
       {| Controller.options := Controller.options st;
          Controller.pose :=
            {| Controller.position := {| x := x pos; y := NaN; z := z pos |};
               Controller.euler := Controller.euler p;
               Controller.throttle := Controller.throttle p |};
          Controller.airspeed := Controller.airspeed st |};
     Controller.status_of := @Controller.status_of dive |}.

Definition desktop : Window :=
  {| innerWidth := of_int 1280; innerHeight := of_int 720;
     devicePixelRatio := of_int 3 |}.

(** The page after the script has run, with and without a HUD element. *)
Definition page : World := exec Main.main (Main.boot desktop (Some EmptyString)).
Definition bare_page : World := exec Main.main (Main.boot desktop None).

(** The page when its tab comes back after a quarter of a second. *)
Definition late_page : World :=
  set_clock {| running := true; elapsed := lit 25 2 |} page.

(** A status to display: 12.34 units per second, nose up 5.5 degrees,
    banked 3.2 degrees to the other side. *)
Definition cruise : Controller.Status :=
  {| Controller.speed := lit 1234 2;
     Controller.pitchDeg := lit 55 1;
     Controller.bankDeg := SFopp (lit 32 1) |}.

End Sample.

(** * Properties *)

(** ** Comparisons of numbers *)

Module NumberFacts.

Lemma compare_swap (a b : number) :
  SFcompare b a = option_map CompOpp (SFcompare a b).
Proof.
  destruct a as [sa|sa| |sa ma ea], b as [sb|sb| |sb mb eb]; simpl;
    try reflexivity;
    try (destruct sa; reflexivity);
    try (destruct sb; reflexivity);
    try (destruct sa, sb; reflexivity).
  destruct sa, sb; simpl; try reflexivity;
    rewrite (Z.compare_antisym ea eb);
    destruct (ea ?= eb) eqn:He; simpl; try reflexivity;
    try rewrite (Pos.compare_cont_antisym ma mb Eq); simpl;
    try rewrite CompOpp_involutive; reflexivity.
Qed.

Lemma compare_refl (a : number) :
  is_nan a = false -> SFcompare a a = Some Eq.
Proof.
  destruct a as [s|s| |s m e]; simpl; intros Hn; try discriminate;
    try (destruct s; reflexivity).
  rewrite Z.compare_refl, Pos.compare_cont_refl. destruct s; reflexivity.
Qed.

Lemma ltb_irrefl (a : number) : ltb a a = false.
Proof.
  unfold ltb, SFltb. destruct a as [s|s| |s m e]; simpl; try reflexivity;
    try (destruct s; reflexivity).
  rewrite Z.compare_refl, Pos.compare_cont_refl. destruct s; reflexivity.
Qed.

Lemma leb_refl (a : number) : is_nan a = false -> leb a a = true.
Proof.
  intros Hn. unfold leb, SFleb. rewrite (compare_refl a Hn). reflexivity.
Qed.

Lemma ltb_leb (a b : number) : ltb a b = true -> leb a b = true.
Proof.
  unfold ltb, leb, SFltb, SFleb.
  destruct (SFcompare a b) as [[ | | ]|]; intros H; try discriminate; reflexivity.
Qed.

(** The accumulator of [Math.min] starts at [+Infinity], which the first
    argument always replaces. *)
Lemma min_step_infinity (a : number) : min_step pos_infinity a = a.
Proof.
  destruct a as [s|s| |s m e]; try reflexivity; destruct s; reflexivity.
Qed.

Lemma Math_min_pair (a b : number) : Math_min [a; b] = min_step a b.
Proof. unfold Math_min. simpl. rewrite min_step_infinity. reflexivity. Qed.

(** [Math.min(a, b)] is never above [a]. *)
Lemma min_step_not_above (a b : number) : ltb a (min_step a b) = false.
Proof.
  unfold min_step.
  destruct (is_nan a) eqn:Ha; [destruct a; reflexivity|].
  destruct (is_nan b) eqn:Hb; [destruct a; reflexivity|].
  assert (Hgen : ltb a (if ltb b a then b else a) = false).
  { destruct (ltb b a) eqn:Hlt; [|apply ltb_irrefl].
    unfold ltb, SFltb in *. rewrite (compare_swap b a).
    destruct (SFcompare b a) as [[ | | ]|]; simpl; try discriminate; reflexivity. }
  destruct b as [[|]| | |]; try exact Hgen;
    destruct a as [[|]| | |]; try exact Hgen; reflexivity.
Qed.

Lemma min_step_le_left (a b : number) :
  is_nan a = false -> is_nan b = false -> leb (min_step a b) a = true.
Proof.
  intros Ha Hb. unfold min_step. rewrite Ha, Hb.
  assert (Hgen : leb (if ltb b a then b else a) a = true).
  { destruct (ltb b a) eqn:Hlt; [apply ltb_leb; exact Hlt|apply leb_refl; exact Ha]. }
  destruct b as [[|]| | |]; try exact Hgen;
    destruct a as [[|]| | |]; try exact Hgen; reflexivity.
Qed.

(** [Math.min(a, b)] is never above [b] either. *)
Lemma min_step_not_above_right (a b : number) : ltb b (min_step a b) = false.
Proof.
  unfold min_step.
  destruct (is_nan a) eqn:Ha; [destruct b; reflexivity|].
  destruct (is_nan b) eqn:Hb; [destruct b; reflexivity|].
  assert (Hgen : ltb b (if ltb b a then b else a) = false).
  { destruct (ltb b a) eqn:Hlt; [apply ltb_irrefl|exact Hlt]. }
  destruct b as [[|]| | |]; try exact Hgen;
    destruct a as [[|]| | |]; try exact Hgen; reflexivity.
Qed.

Lemma min_step_le_right (a b : number) :
  is_nan a = false -> is_nan b = false -> leb (min_step a b) b = true.
Proof.
  intros Ha Hb. unfold min_step. rewrite Ha, Hb.
  assert (Hgen : leb (if ltb b a then b else a) b = true).
  { destruct (ltb b a) eqn:Hlt; [apply leb_refl; exact Hb|].
    unfold leb, ltb, SFleb, SFltb in *. rewrite (compare_swap b a).
    destruct (SFcompare b a) as [[ | | ]|] eqn:Hc; simpl; try discriminate;
      try reflexivity.
    destruct b, a; simpl in *; discriminate. }
  destruct b as [[|]| | |]; try exact Hgen;
    destruct a as [[|]| | |]; try exact Hgen; reflexivity.
Qed.

End NumberFacts.

(** ** Rounding of binary64 products *)

Module RoundingFacts.

Lemma digits2_pos_bounds (m : positive) :
  2 ^ (Zpos (digits2_pos m) - 1) <= Zpos m < 2 ^ Zpos (digits2_pos m).
Proof.
  induction m as [m IH|m IH|]; simpl digits2_pos.
  - rewrite Pos2Z.inj_succ.
    replace (Z.succ (Zpos (digits2_pos m)) - 1) with (Z.succ (Zpos (digits2_pos m) - 1)) by lia.
    rewrite !Z.pow_succ_r by lia. lia.
  - rewrite Pos2Z.inj_succ.
    replace (Z.succ (Zpos (digits2_pos m)) - 1) with (Z.succ (Zpos (digits2_pos m) - 1)) by lia.
    rewrite !Z.pow_succ_r by lia. lia.
  - simpl. lia.
Qed.

(** A number below [2^n] has at most [n] binary digits. *)
Lemma digits2_pos_le (m : positive) (n : Z) :
  Zpos m < 2 ^ n -> Zpos (digits2_pos m) <= n.
Proof.
  intros Hm. destruct (digits2_pos_bounds m) as [Hlo _].
  destruct (Z_le_gt_dec (Zpos (digits2_pos m)) n) as [Hle|Hgt]; [exact Hle|].
  exfalso.
  assert (Hn : 0 <= n).
  { destruct (Z_lt_le_dec n 0) as [Hneg|Hnn]; [|exact Hnn].
    rewrite (Z.pow_neg_r 2 n Hneg) in Hm. lia. }
  assert (2 ^ n <= 2 ^ (Zpos (digits2_pos m) - 1)) by (apply Z.pow_le_mono_r; lia).
  lia.
Qed.

(** An invariant that holds after [k] steps holds after [k + p] steps. *)
Lemma iter_pos_invariant {A : Type} (f : A -> A) (P : Z -> A -> Prop) :
  (forall k a, 0 <= k -> P k a -> P (k + 1) (f a)) ->
  forall p k a, 0 <= k -> P k a -> P (k + Zpos p) (iter_pos f p a).
Proof.
  intros Hstep. induction p as [p IH|p IH|]; intros k a Hk Ha; simpl.
  - replace (k + Zpos p~1) with (k + 1 + Zpos p + Zpos p) by lia.
    apply IH; [lia|]. apply IH; [lia|]. apply Hstep; assumption.
  - replace (k + Zpos p~0) with (k + Zpos p + Zpos p) by lia.
    apply IH; [lia|]. apply IH; assumption.
  - apply Hstep; assumption.
Qed.

(** [r] is what is left of [M] after dropping its [k] low bits: the
    quotient, and a round bit that is set only when the dropped part is at
    least half a unit. *)
Definition shifted (M k : Z) (r : shr_record) : Prop :=
  0 <= shr_m r /\
  shr_m r * 2 ^ k <= M /\
  (shr_r r = true -> (2 * shr_m r + 1) * 2 ^ k <= 2 * M).

Lemma shr_1_shifted (M k : Z) (r : shr_record) :
  0 <= k -> shifted M k r -> shifted M (k + 1) (shr_1 r).
Proof.
  intros Hk (Hm & Hle & _). unfold shifted.
  rewrite Z.pow_add_r by lia. change (2 ^ 1) with 2.
  assert (Hp : 0 < 2 ^ k) by (apply Z.pow_pos_nonneg; lia).
  generalize dependent (2 ^ k). intros P Hle Hp.
  destruct r as [m rb sb]. cbn [shr_m] in Hm, Hle.
  destruct m as [|[p|p|]|p]; cbn [shr_1 shr_m shr_r]; lia.
Qed.

Lemma shr_shifted (M : Z) (e n : Z) :
  0 <= M ->
  let '(r, e') := shr (Build_shr_record M false false) e n in
  e' = e + Z.max 0 n /\ shifted M (Z.max 0 n) r.
Proof.
  intros HM. unfold shr.
  assert (H0 : shifted M 0 (Build_shr_record M false false)).
  { unfold shifted; simpl. repeat split; [lia|lia|discriminate]. }
  destruct n as [|p|p]; simpl Z.max.
  - split; [lia|exact H0].
  - split; [reflexivity|].
    apply (iter_pos_invariant shr_1 (shifted M) (shr_1_shifted M) p 0); [lia|exact H0].
  - split; [lia|exact H0].
Qed.

Lemma round_nearest_even_bounds (r : shr_record) :
  shr_m r <= round_nearest_even (shr_m r) (loc_of_shr_record r)
          <= shr_m r + (if shr_r r then 1 else 0).
Proof.
  destruct r as [m [|] [|]]; simpl; try lia.
  destruct (Z.even m); lia.
Qed.

(** The outcome of rounding [M * 2^E]: either zero or an infinity, or a
    mantissa [m] and an exponent [E + N] that do not exceed [M * 2^E] by
    more than half of [2^(E + n)], where [n] bits were dropped at first. *)
Lemma binary_round_aux_upper (s : bool) (M : positive) (E : Z) :
  let n := Z.max 0 (fexp prec emax (Zdigits2 (Zpos M) + E) - E) in
  match binary_round_aux prec emax s (Zpos M) E loc_Exact with
  | S754_finite s' m e =>
      s' = s /\ exists N, 0 <= N /\ e = E + N /\ 2 * Zpos m * 2 ^ N <= 2 * Zpos M + 2 ^ n
  | S754_zero s' => s' = s
  | S754_infinity s' => s' = s
  | S754_nan => False
  end.
Proof.
  intros n. unfold binary_round_aux, shr_fexp. simpl shr_record_of_loc.
  pose proof (shr_shifted (Zpos M) E (fexp prec emax (Zdigits2 (Zpos M) + E) - E)
                ltac:(lia)) as H1.
  fold n in H1.
  destruct (shr (Build_shr_record (Zpos M) false false) E
              (fexp prec emax (Zdigits2 (Zpos M) + E) - E)) as [r1 e1].
  destruct H1 as [He1 (Hm1 & Hle1 & Hr1)].
  pose proof (round_nearest_even_bounds r1) as Hrne.
  set (m1 := round_nearest_even (shr_m r1) (loc_of_shr_record r1)) in *.
  assert (Hn : 0 <= n) by (unfold n; lia).
  assert (Hpn : 0 < 2 ^ n) by (apply Z.pow_pos_nonneg; lia).
  assert (Hup : 2 * m1 * 2 ^ n <= 2 * Zpos M + 2 ^ n).
  { destruct (shr_r r1); [specialize (Hr1 eq_refl); nia|nia]. }
  pose proof (shr_shifted m1 e1 (fexp prec emax (Zdigits2 m1 + e1) - e1)
                ltac:(lia)) as H2.
  destruct (shr (Build_shr_record m1 false false) e1
              (fexp prec emax (Zdigits2 m1 + e1) - e1)) as [r2 e2].
  destruct H2 as [He2 (Hm2 & Hle2 & _)].
  set (n2 := Z.max 0 (fexp prec emax (Zdigits2 m1 + e1) - e1)) in *.
  assert (Hn2 : 0 <= n2) by (unfold n2; lia).
  destruct (shr_m r2) as [|m|m] eqn:Hm; [simpl; reflexivity| |lia].
  destruct (e2 <=? emax - prec); [|simpl; reflexivity].
  split; [reflexivity|].
  exists (n + n2). split; [lia|]. split; [lia|].
  rewrite Z.pow_add_r by lia.
  assert (Hp2 : 0 < 2 ^ n2) by (apply Z.pow_pos_nonneg; lia).
  nia.
Qed.

End RoundingFacts.

(** ** The throttle percentage of the HUD *)

Module ThrottleFacts.

Import RoundingFacts Main.

Lemma bounded_canonical (m : positive) (e : Z) :
  bounded prec emax m e = true ->
  Zpos (digits2_pos m) <= 53 /\ -1074 <= e <= 971 /\
  (Zpos (digits2_pos m) = 53 \/ e = -1074).
Proof.
  unfold bounded, canonical_mantissa, fexp, SpecFloat.emin, prec, emax.
  intros H. apply andb_true_iff in H. destruct H as [Hc He].
  apply Z.eqb_eq in Hc. apply Z.leb_le in He.
  change IntDef.Z.max with Z.max in Hc. lia.
Qed.

(** The numbers of the interval [0, 1]: the two zeros, one, and the
    positive numbers whose mantissa stays below the weight of their unit. *)
Lemma unit_interval_cases (v : number) :
  is_number v = true -> leb (of_int 0) v = true -> leb v (of_int 1) = true ->
  (exists s, v = S754_zero s) \/ v = of_int 1 \/
  (exists m e, v = S754_finite false m e /\
               -1074 <= e < 0 /\ Zpos m < 2 ^ 53 /\ Zpos m < 2 ^ (- e)).
Proof.
  intros Hv H0 H1.
  destruct v as [s|s| |s m e]; simpl in Hv.
  - left. exists s. reflexivity.
  - destruct s; discriminate.
  - discriminate.
  - destruct s; [discriminate|].
    destruct (bounded_canonical m e Hv) as (Hd & He & Hcan).
    destruct (digits2_pos_bounds m) as [Hlo Hhi].
    assert (Hm53 : Zpos m < 2 ^ 53).
    { apply Z.lt_le_trans with (1 := Hhi). apply Z.pow_le_mono_r; lia. }
    change (of_int 1) with (S754_finite false 4503599627370496 (-52)) in *.
    unfold leb, SFleb, SFcompare in H1.
    destruct (e ?= -52) eqn:Hcmp.
    + apply Z.compare_eq in Hcmp. subst e.
      assert (Hd53 : Zpos (digits2_pos m) = 53) by lia.
      rewrite Hd53 in Hlo. change (2 ^ (53 - 1)) with 4503599627370496 in Hlo.
      destruct (Pos.compare_cont Eq m 4503599627370496) eqn:Hm; try discriminate.
      * apply Pos.compare_eq in Hm. subst m. right. left. reflexivity.
      * pose proof (proj1 (Pos.compare_lt_iff m 4503599627370496) Hm) as Hlt.
        apply Pos2Z.pos_lt_pos in Hlt. clear - Hlt Hlo. lia.
    + change (e < -52) in Hcmp. right. right. exists m, e.
      split; [reflexivity|]. split; [lia|]. split; [exact Hm53|].
      apply Z.lt_le_trans with (1 := Hm53). apply Z.pow_le_mono_r; lia.
    + discriminate.
Qed.

(** Below one, the rounded product with 100 stays below 100. *)
Lemma truncate_mul_100_below (m : positive) (e : Z) :
  -1074 <= e < 0 -> Zpos m < 2 ^ 53 -> Zpos m < 2 ^ (- e) ->
  0 <= truncate (mul (S754_finite false m e) (of_int 100)) <= 99.
Proof.
  intros He Hm53 Hm1.
  change (of_int 100) with (S754_finite false 7036874417766400 (-46)).
  unfold mul, SFmul. simpl xorb.
  pose proof (binary_round_aux_upper false (m * 7036874417766400) (e + -46)) as H.
  cbv zeta in H.
  destruct (binary_round_aux prec emax false (Zpos (m * 7036874417766400)) (e + -46)
              loc_Exact) as [s'|s'| |s' r q]; simpl truncate; try lia.
  destruct H as [Hs (N & HN & Hq & Hup)]. subst s'.
  set (M := Zpos (m * 7036874417766400)) in *.
  assert (HM : M = Zpos m * 7036874417766400) by reflexivity.
  (* at most 53 bits are dropped *)
  assert (Hd : Zdigits2 M <= 106).
  { unfold M. simpl Zdigits2. apply digits2_pos_le. fold M. rewrite HM.
    change (2 ^ 106) with (2 ^ 53 * 2 ^ 53).
    change (2 ^ 53) with 9007199254740992 in *. nia. }
  set (n := Z.max 0 (fexp prec emax (Zdigits2 M + (e + -46)) - (e + -46))) in *.
  assert (Hn : 0 <= n <= 53).
  { unfold n, fexp, SpecFloat.emin, prec, emax.
    change IntDef.Z.max with Z.max. lia. }
  assert (Hpn : 2 ^ n <= 2 ^ 53) by (apply Z.pow_le_mono_r; lia).
  change (2 ^ 53) with 9007199254740992 in *.
  (* the weight of one, in units of the product *)
  assert (Hw : 2 ^ (46 - e) = 70368744177664 * 2 ^ (- e)).
  { replace (46 - e) with (46 + - e) by lia. rewrite Z.pow_add_r by lia. reflexivity. }
  assert (Hpe : 0 < 2 ^ (- e)) by (apply Z.pow_pos_nonneg; lia).
  assert (HpN : 0 < 2 ^ N) by (apply Z.pow_pos_nonneg; lia).
  assert (Hlt : Zpos r * 2 ^ N < 100 * 2 ^ (46 - e)) by (rewrite Hw; nia).
  destruct q as [|p|p].
  - (* the exponent is zero *)
    rewrite Z.shiftl_0_r.
    assert (HNe : N = 46 - e) by lia. rewrite HNe in Hlt.
    assert (0 < 2 ^ (46 - e)) by (apply Z.pow_pos_nonneg; lia). nia.
  - rewrite Z.shiftl_mul_pow2 by lia.
    assert (HNe : N = Zpos p + (46 - e)) by lia.
    rewrite HNe, Z.pow_add_r in Hlt by lia.
    assert (0 < 2 ^ (46 - e)) by (apply Z.pow_pos_nonneg; lia).
    assert (0 < 2 ^ Zpos p) by (apply Z.pow_pos_nonneg; lia). nia.
  - rewrite Z.shiftr_div_pow2 by lia.
    assert (HNe : 46 - e = N + Zpos p) by lia.
    rewrite HNe, Z.pow_add_r in Hlt by lia.
    assert (Hpp : 0 < 2 ^ Zpos p) by (apply Z.pow_pos_nonneg; lia).
    assert (Hr : Zpos r < 100 * 2 ^ Zpos p) by nia.
    split; [apply Z.div_pos; lia|].
    assert (Zpos r / 2 ^ Zpos p < 100); [|lia].
    apply Z.div_lt_upper_bound; lia.
Qed.

Lemma bitor_zero_small (v : number) :
  0 <= truncate v <= 100 -> bitor v (of_int 0) = truncate v.
Proof.
  intros Hv. unfold bitor, ToInt32.
  change (truncate (of_int 0)) with 0. change (0 mod 2 ^ 32) with 0.
  change (2 ^ 31 <=? 0) with false. cbv iota. rewrite Z.lor_0_r.
  change (2 ^ 32) with 4294967296. change (2 ^ 31) with 2147483648.
  rewrite Z.mod_small by lia.
  destruct (2147483648 <=? truncate v) eqn:Hc; [apply Z.leb_le in Hc; lia|reflexivity].
Qed.

End ThrottleFacts.

(** ** Running the script *)

Module ScriptFacts.

Import THREE Browser Main.

Lemma skipn_snoc {A : Type} (n : nat) (l : list A) (c : A) :
  (n <= List.length l)%nat -> skipn n (l ++ [c]) = skipn n l ++ [c].
Proof.
  revert n. induction l as [|a l IH]; intros [|n] Hn; simpl in *;
    try reflexivity; try lia.
  apply IH. lia.
Qed.

Lemma append_assoc (a b c : string) :
  ((a ++ b) ++ c)%string = (a ++ b ++ c)%string.
Proof. induction a as [|ch a IH]; simpl; [reflexivity|rewrite IH; reflexivity]. Qed.

Lemma not_below_at_least (a b : number) :
  is_nan a = false -> is_nan b = false -> ltb a b = false -> leb b a = true.
Proof.
  intros Ha Hb. unfold ltb, leb, SFltb, SFleb. rewrite (NumberFacts.compare_swap a b).
  destruct (SFcompare a b) as [[ | | ]|] eqn:Hc; simpl; try discriminate;
    try reflexivity.
  destruct a, b; simpl in *; discriminate.
Qed.

(** Unfolds the script down to the fields of the world. *)
Ltac js_run :=
  cbv [main animate updateHUD resize_handler keydown_handler
       dispatch run_all run_callback listening filter map boot
       renderer_setPixelRatio renderer_setSize renderer_render body_appendChild
       camera_updateProjectionMatrix controller_setTransform controller_update
       controller_getStatus controller_getEnginePower clock_getDelta
       element_set_innerHTML window_addEventListener requestAnimationFrame
       bind ret throw gets modify log exec completion calls_of
       set_window set_renderer set_camera set_controller set_hudEl set_clock
       set_listeners set_frame_requests set_calls
       window renderer scene camera controller hudEl clock listeners
       frame_requests calls running elapsed fst snd] in *.

(** Decides which listeners an event type selects. *)
Ltac js_listeners :=
  change (String.eqb "resize" "resize") with true in *;
  change (String.eqb "keydown" "resize") with false in *;
  change (String.eqb "resize" "keydown") with false in *;
  change (String.eqb "keydown" "keydown") with true in *;
  js_run.

(** Reads off the calls appended to a log. *)
Ltac new_calls :=
  repeat rewrite skipn_snoc by (rewrite ?length_app; simpl; lia);
  rewrite ?skipn_all; cbn [app].

Section WithEnvironment.

Context {host : Host} {dynamics : Controller.Dynamics}.

(** The template of [updateHUD] spells the three lines of [hud_text]. *)
Lemma hud_template (s : Controller.Status) (power : number) :
  ((("Vel: " ++ toFixed (Controller.speed s) 1 ++ " u/s<br>") ++
    ("Throttle: " ++ string_of_int32 (bitor (mul power (of_int 100)) (of_int 0))
       ++ "%<br>") ++
    ("Pitch/Bank: " ++ toFixed (Controller.pitchDeg s) 0 ++ degree ++ " / "
       ++ toFixed (Controller.bankDeg s) 0 ++ degree))%string)
  = hud_text s power.
Proof.
  unfold hud_text, hud_lines, throttle_percent. cbn [String.concat].
  rewrite !append_assoc. cbn [append]. rewrite ?append_assoc. reflexivity.
Qed.

Lemma updateHUD_calls (w : World) :
  calls_of updateHUD w =
  match hudEl w with
  | None => []
  | Some _ =>
      [Controller_getStatus; Controller_getEnginePower;
       Element_setInnerHTML
         (hud_text (Controller.getStatus (controller w))
                   (Controller.getEnginePower (controller w)))]
  end.
Proof.
  destruct w as [win ren sc cam ctl [html|] clk ls fr cs]; js_run; new_calls;
    [rewrite hud_template|]; reflexivity.
Qed.

(** The calls of the script itself, up to its first frame. *)
Lemma main_calls (win : Window) (hud : option string) :
  let dt := Math_min [lit 5 2; of_int 0] in
  let ctl := Controller.update dt
               (Controller.setTransform startup_pose
                  (Controller.create controller_options)) in
  calls (exec main (boot win hud)) =
  [Renderer_setPixelRatio (Math_min [devicePixelRatio win; of_int 2]);
   Renderer_setSize (innerWidth win) (innerHeight win);
   Body_appendChild;
   Controller_setTransform startup_pose;
   Window_addEventListener "resize" CbResize;
   Window_addEventListener "keydown" CbKeydown;
   Clock_getDelta;
   Controller_update dt] ++
  match hud with
  | None => []
  | Some _ =>
      [Controller_getStatus; Controller_getEnginePower;
       Element_setInnerHTML
         (hud_text (Controller.getStatus ctl) (Controller.getEnginePower ctl))]
  end ++
  [Renderer_render; Window_requestAnimationFrame CbAnimate].
Proof.
  destruct hud as [html|]; js_run; cbn [app]; [rewrite hud_template|];
    reflexivity.
Qed.

(** The only pose the script itself hands to [setTransform]. *)
Lemma main_setTransform (win : Window) (hud : option string)
    (p : Controller.Pose) :
  In (Controller_setTransform p) (calls (exec main (boot win hud))) ->
  p = startup_pose.
Proof.
  rewrite main_calls. intros Hp.
  assert (Hall : forall c, In c (calls (exec main (boot win hud))) ->
            match c with
            | Controller_setTransform q => q = startup_pose
            | _ => True
            end).
  { intros c. rewrite main_calls. intros Hc.
    destruct hud as [html|]; cbn [app In] in Hc;
      repeat (destruct Hc as [<-|Hc]; [first [exact I|reflexivity]|]);
      contradiction. }
  apply (Hall (Controller_setTransform p)). rewrite main_calls. exact Hp.
Qed.


(** What never changes once the script has run: its two listeners, the
    one pending frame request, the running clock, the configuration of
    the controller, and the pixel ratio of the renderer, which is not
    above 2. *)
Lemma reachable_invariant (w : World) :
  Reachable w ->
  listeners w = [("resize"%string, CbResize); ("keydown"%string, CbKeydown)] /\
  frame_requests w = [CbAnimate] /\
  running (clock w) = true /\
  Controller.options (controller w) = controller_options /\
  ltb (of_int 2) (pixelRatio (renderer w)) = false.
Proof.
  induction 1 as [win hud|w ev Hw IH].
  - destruct hud as [html|]; js_run;
      (split; [reflexivity|split; [reflexivity|split; [reflexivity|
       split; [reflexivity|]]]]);
      cbn [pixelRatio]; rewrite NumberFacts.Math_min_pair;
      apply NumberFacts.min_step_not_above_right.
  - destruct w as [win ren sc cam ctl hud clk ls fr cs].
    destruct IH as (Hls & Hfr & Hclk & Hopt & Hpx).
    cbn in Hls, Hfr, Hclk, Hopt, Hpx.
    destruct clk as [run el]. cbn in Hclk. subst ls fr run.
    destruct ev as [wd ht dpr|e|seconds]; js_run; js_listeners.
    + repeat split; assumption.
    + destruct (String.eqb (code e) "KeyR"); cbn; repeat split; assumption.
    + destruct hud as [html|]; cbn; repeat split; assumption.
Qed.

(** The ground-height clamp, whatever the integration step does. *)
Lemma update_not_below (st : Controller.State) (dt : number) :
  ltb (Controller.height (Controller.update dt st))
      (Controller.minY (Controller.options st)) = false.
Proof.
  unfold Controller.update, Controller.height, Controller.enforce_min_height.
  cbn [Controller.pose Controller.position y].
  destruct (leb (Controller.minY (Controller.options st))
              (y (Controller.position (Controller.pose (Controller.integrate dt st)))))
    eqn:Hhigh.
  - unfold ltb, leb, SFltb, SFleb in *.
    rewrite (NumberFacts.compare_swap (Controller.minY (Controller.options st))).
    destruct (SFcompare (Controller.minY (Controller.options st))
                (y (Controller.position
                      (Controller.pose (Controller.integrate dt st)))))
      as [[ | | ]|]; try discriminate; reflexivity.
  - apply NumberFacts.ltb_irrefl.
Qed.

(** With a minimum that is a number, the height is at least the minimum
    after [update], whatever the integration step does. *)
Lemma update_at_least (st : Controller.State) (dt : number) :
  is_nan (Controller.minY (Controller.options st)) = false ->
  leb (Controller.minY (Controller.options st))
      (Controller.height (Controller.update dt st)) = true.
Proof.
  intros Hmin.
  unfold Controller.update, Controller.height, Controller.enforce_min_height.
  cbn [Controller.pose Controller.position y].
  destruct (leb (Controller.minY (Controller.options st))
              (y (Controller.position (Controller.pose (Controller.integrate dt st)))))
    eqn:Hhigh.
  - exact Hhigh.
  - apply NumberFacts.leb_refl. exact Hmin.
Qed.

(** At no time is the plane below the minimum height of the script. *)
Lemma reachable_never_below_ground (w : World) :
  Reachable w -> ltb (Controller.height (controller w)) (of_int 2) = false.
Proof.
  induction 1 as [win hud|w ev Hw IH].
  - destruct hud as [html|]; js_run;
      exact (update_not_below
               (Controller.setTransform startup_pose
                  (Controller.create controller_options)) _).
  - destruct (reachable_invariant w Hw) as (Hls & Hfr & Hclk & Hopt & _).
    destruct w as [win ren sc cam ctl hud [run el] ls fr cs].
    cbn in Hls, Hfr, Hclk, Hopt, IH. subst ls fr run.
    pose proof (fun dt => update_not_below ctl dt) as Hup.
    rewrite Hopt in Hup. change (Controller.minY controller_options)
      with (of_int 2) in Hup.
    clear Hw. destruct ev as [wd ht dpr|e|seconds]; js_run; js_listeners.
    + exact IH.
    + destruct (String.eqb (code e) "KeyR"); [reflexivity|exact IH].
    + destruct hud as [html|]; apply Hup.
Qed.

(** The pixel ratio of the renderer is never above 2. *)
Lemma reachable_pixel_ratio (w : World) :
  Reachable w -> ltb (of_int 2) (pixelRatio (renderer w)) = false.
Proof.
  intros Hw. destruct (reachable_invariant w Hw) as (_ & _ & _ & _ & Hpx).
  exact Hpx.
Qed.

(** In the model, where only the assignment to [innerHTML] can throw, no
    callback throws. *)
Lemma dispatch_never_throws (w : World) (ev : BrowserEvent) :
  Reachable w -> completion (dispatch ev) w = Normal tt.
Proof.
  intros Hw. destruct (reachable_invariant w Hw) as (Hls & Hfr & Hclk & _ & _).
  destruct w as [win ren sc cam ctl hud clk ls fr cs].
  cbn in Hls, Hfr, Hclk. destruct clk as [run el]. cbn in Hclk. subst ls fr run.
  destruct ev as [wd ht dpr|e|seconds]; js_run; js_listeners.
  - reflexivity.
  - destruct (String.eqb (code e) "KeyR"); reflexivity.
  - destruct hud as [html|]; reflexivity.
Qed.

End WithEnvironment.

End ScriptFacts.

(** ** The properties of the specification *)

Section Claims.

Import THREE Browser Main.
Import NumberFacts ThrottleFacts ScriptFacts.

Context {host : Host} {dynamics : Controller.Dynamics}.

(** C1. In a frame of the animation loop, [controller.update] receives
    [dt = Math.min(0.05, delta)], where [delta] is what [clock.getDelta()]
    answered; when [delta] is nonnegative, [dt] is at most 0.05. *)
Theorem animate_dt_clamped (w : World) (delta : number) :
  completion clock_getDelta w = Normal delta ->
  leb (of_int 0) delta = true ->
  update_steps (calls_of animate w) = [Math_min [lit 5 2; delta]] /\
  leb (Math_min [lit 5 2; delta]) (lit 5 2) = true.
Proof.
  intros Hdelta Hpos. split.
  - destruct w as [win ren sc cam ctl hud [run el] ls fr cs].
    js_run. destruct run; injection Hdelta as <-;
      destruct hud as [html|]; new_calls; reflexivity.
  - rewrite Math_min_pair. apply min_step_le_left; [reflexivity|].
    destruct delta; try reflexivity; discriminate.
Qed.

(** C2. After [controller.update(dt)], with the configuration of the
    script, the height of the plane is at least [minY = 2], whatever the
    state before, the step [dt] and the integration are. *)
Theorem update_keeps_min_height (st : Controller.State) (dt : number) :
  Controller.options st = controller_options ->
  Controller.minY (Controller.options st) = of_int 2 /\
  ltb (Controller.height (Controller.update dt st)) (of_int 2) = false /\
  leb (of_int 2) (Controller.height (Controller.update dt st)) = true.
Proof.
  intros Hopt.
  pose proof (update_not_below st dt) as Hlow.
  pose proof (update_at_least st dt) as Hhigh.
  rewrite Hopt in Hlow, Hhigh.
  change (Controller.minY controller_options) with (of_int 2) in Hlow, Hhigh.
  rewrite Hopt. split; [reflexivity|]. split; [exact Hlow|].
  apply Hhigh. reflexivity.
Qed.

(** C3. On a keydown event with code ['KeyR'] the handler calls
    [controller.setTransform] with position (0, 2, 0), Euler angles (0, 0, 0)
    in order 'YXZ' and throttle 0, and with nothing else; this is the
    pose, and the only one, that the script applies at start-up. *)
Theorem keyR_resets_to_takeoff_pose (w : World) (e : KeyboardEvent)
    (win : Window) (hud : option string) :
  code e = "KeyR"%string ->
  let takeoff :=
    {| Controller.position := {| x := of_int 0; y := of_int 2; z := of_int 0 |};
       Controller.euler := {| ex := of_int 0; ey := of_int 0; ez := of_int 0;
                              order := YXZ |};
       Controller.throttle := of_int 0 |} in
  calls_of (keydown_handler e) w = [Controller_setTransform takeoff] /\
  Controller.pose (controller (exec (keydown_handler e) w)) = takeoff /\
  In (Controller_setTransform takeoff) (calls (exec main (boot win hud))) /\
  (forall p, In (Controller_setTransform p) (calls (exec main (boot win hud))) ->
             p = takeoff).
Proof.
  intros Hcode takeoff. split; [|split; [|split]].
  - destruct w as [wn ren sc cam ctl hd clk ls fr cs]. js_run.
    rewrite Hcode. change (String.eqb "KeyR" "KeyR") with true. cbv iota beta.
    new_calls. reflexivity.
  - destruct w as [wn ren sc cam ctl hd clk ls fr cs]. js_run.
    rewrite Hcode. change (String.eqb "KeyR" "KeyR") with true. cbv iota beta.
    cbv [Controller.pose Controller.setTransform vec takeoff]. reflexivity.
  - rewrite main_calls. cbn [app In]. right; right; right; left. reflexivity.
  - intros p Hp. apply (main_setTransform win hud p Hp).
Qed.

(** C4. In a frame, the content put into the HUD element is the text
    ["Vel: <speed, 1 decimal> u/s"], ["Throttle: <truncated percent>%"],
    ["Pitch/Bank: <pitch>d / <bank>d"] (d the degree sign), joined by line
    breaks, computed from
    the status snapshot and the engine power of the controller, which are
    queried for it and left as they are. *)
Theorem updateHUD_content (w : World) (old : string) :
  hudEl w = Some old ->
  let status := Controller.getStatus (controller w) in
  let power := Controller.getEnginePower (controller w) in
  hudEl (exec updateHUD w)
    = Some (String.concat "<br>"
              ["Vel: " ++ toFixed (Controller.speed status) 1 ++ " u/s";
               "Throttle: " ++ string_of_int32 (throttle_percent power) ++ "%";
               "Pitch/Bank: " ++ toFixed (Controller.pitchDeg status) 0 ++ degree
                 ++ " / " ++ toFixed (Controller.bankDeg status) 0 ++ degree])%string /\
  calls_of updateHUD w
    = [Controller_getStatus; Controller_getEnginePower;
       Element_setInnerHTML (hud_text status power)] /\
  controller (exec updateHUD w) = controller w /\
  hudEl (exec animate w)
    = Some (hud_text (Controller.getStatus (controller (exec animate w)))
                     (Controller.getEnginePower (controller (exec animate w)))).
Proof.
  intros Hhud status power. subst status power.
  pose proof (updateHUD_calls w) as Hcalls. rewrite Hhud in Hcalls.
  destruct w as [wn ren sc cam ctl hd [run el] ls fr cs]. cbn in Hhud. subst hd.
  repeat split.
  - js_run. rewrite hud_template. reflexivity.
  - exact Hcalls.
  - js_run. destruct run; rewrite hud_template; reflexivity.
Qed.


(** C6. For a throttle [v] in [0, 1], the percentage shown by the HUD,
    [(v * 100) | 0], is an integer between 0 and 100, and it is 100 exactly
    when [v] is 1. *)
Theorem throttle_percent_range (v : number) :
  is_number v = true ->
  leb (of_int 0) v = true ->
  leb v (of_int 1) = true ->
  0 <= throttle_percent v <= 100 /\ (throttle_percent v = 100 <-> v = of_int 1).
Proof.
  intros Hv H0 H1. unfold throttle_percent.
  destruct (unit_interval_cases v Hv H0 H1) as [[s ->]|[->|(m & e & -> & He & Hm & Hlt)]].
  - destruct s;
      (split; [vm_compute; split; discriminate
              |split; intros H; [vm_compute in H; discriminate|discriminate]]).
  - split; [vm_compute; split; discriminate|]. split; reflexivity.
  - pose proof (truncate_mul_100_below m e He Hm Hlt) as Hb.
    rewrite bitor_zero_small by lia. split; [lia|].
    split; [lia|]. intros Hone. exfalso.
    change (of_int 1) with (S754_finite false 4503599627370496 (-52)) in Hone.
    injection Hone as Hm1 He1. subst e. lia.
Qed.

(** C7. After a resize event, the aspect of the camera is
    [window.innerWidth / window.innerHeight], its projection matrix has been
    recomputed from it, and the size of the renderer is the new size of the
    window. *)
Theorem resize_refits_camera_and_renderer (w : World) (wd ht dpr : number) :
  Reachable w ->
  let w' := exec (dispatch (EvResize wd ht dpr)) w in
  (innerWidth (window w') = wd /\ innerHeight (window w') = ht) /\
  aspect (camera w') = div (innerWidth (window w')) (innerHeight (window w')) /\
  projectionMatrix (camera w') = frustum (camera w') /\
  size (renderer w') = (innerWidth (window w'), innerHeight (window w')) /\
  calls_of (dispatch (EvResize wd ht dpr)) w
    = [Camera_updateProjectionMatrix; Renderer_setSize wd ht].
Proof.
  intros Hw. destruct (reachable_invariant w Hw) as (Hls & _). clear Hw.
  destruct w as [win ren sc cam ctl hud clk ls fr cs]. cbn in Hls. subst ls.
  js_run. js_listeners. new_calls. repeat split; reflexivity.
Qed.

(** C8. A display refresh runs the animation loop once: it calls
    [controller.update(dt)] exactly once, before the calls of [updateHUD]
    and before [renderer.render], and requests the next frame, so that
    exactly one request is pending again.  Neither [updateHUD], nor the
    resize and keydown callbacks call [update], and the script calls it once,
    in its first frame. *)
Theorem frame_updates_once_and_first (w : World) (seconds : number) :
  Reachable w ->
  let dt := Math_min [lit 5 2; seconds] in
  (exists w1,
     controller w1 = Controller.update dt (controller w) /\
     hudEl w1 = hudEl w /\
     calls_of (dispatch (EvAnimationFrame seconds)) w
       = [Clock_getDelta; Controller_update dt] ++ calls_of updateHUD w1
           ++ [Renderer_render; Window_requestAnimationFrame CbAnimate] /\
     update_steps (calls_of updateHUD w1) = []) /\
  update_steps (calls_of (dispatch (EvAnimationFrame seconds)) w) = [dt] /\
  frame_requests (exec (dispatch (EvAnimationFrame seconds)) w) = [CbAnimate] /\
  (forall wd ht dpr,
     update_steps (calls_of (dispatch (EvResize wd ht dpr)) w) = []) /\
  (forall e, update_steps (calls_of (dispatch (EvKeydown e)) w) = []) /\
  (forall win hud, update_steps (calls (exec main (boot win hud)))
                   = [Math_min [lit 5 2; of_int 0]]).
Proof.
  intros Hw dt. destruct (reachable_invariant w Hw) as (Hls & Hfr & Hclk & _).
  clear Hw. destruct w as [win ren sc cam ctl hud [run el] ls fr cs].
  cbn in Hls, Hfr, Hclk. subst ls fr run.
  split; [|split; [|split; [|split; [|split]]]].
  - exists (exec (controller_update dt)
              (exec clock_getDelta
                 (set_frame_requests []
                    (set_clock {| running := true; elapsed := seconds |}
                       {| window := win; renderer := ren; scene := sc; camera := cam;
                          controller := ctl; hudEl := hud;
                          clock := {| running := true; elapsed := el |};
                          listeners := [("resize"%string, CbResize);
                                        ("keydown"%string, CbKeydown)];
                          frame_requests := [CbAnimate]; calls := cs |})))).
    rewrite updateHUD_calls. split; [reflexivity|]. split; [reflexivity|].
    js_run. destruct hud as [html|]; new_calls; [rewrite hud_template|];
      split; reflexivity.
  - js_run. destruct hud as [html|]; new_calls; reflexivity.
  - js_run. destruct hud as [html|]; reflexivity.
  - intros wd ht dpr. js_run. js_listeners. new_calls. reflexivity.
  - intros e. js_run. js_listeners.
    destruct (String.eqb (code e) "KeyR"); new_calls; reflexivity.
  - intros win' hud'. rewrite main_calls. destruct hud'; reflexivity.
Qed.

(** C9. On a keydown event whose code is not ['KeyR'] the handler does
    nothing: it returns with the world (controller, plane transform, scene
    and all the rest) as it was, and makes no call. *)
Theorem other_keys_do_nothing (w : World) (e : KeyboardEvent) :
  code e <> "KeyR"%string ->
  keydown_handler e w = (Normal tt, w) /\
  calls_of (keydown_handler e) w = [].
Proof.
  intros Hcode. apply String.eqb_neq in Hcode.
  assert (Hrun : keydown_handler e w = (Normal tt, w)).
  { unfold keydown_handler. rewrite Hcode. reflexivity. }
  split; [exact Hrun|].
  unfold calls_of, exec. rewrite Hrun. apply skipn_all.
Qed.

(** C10. Whatever the device pixel ratio [d] of the window, the script
    sets the pixel ratio of the renderer to [Math.min(d, 2)], which is never
    above 2 (and at most 2 unless [d] is NaN). *)
Theorem pixel_ratio_capped (win : Window) (hud : option string) :
  let w := exec main (boot win hud) in
  let d := devicePixelRatio win in
  pixelRatio (renderer w) = Math_min [d; of_int 2] /\
  In (Renderer_setPixelRatio (Math_min [d; of_int 2])) (calls w) /\
  ltb (of_int 2) (pixelRatio (renderer w)) = false /\
  (is_nan d || leb (pixelRatio (renderer w)) (of_int 2)) = true.
Proof.
  intros w d.
  assert (Hpx : pixelRatio (renderer w) = Math_min [d; of_int 2]).
  { subst w d. destruct hud as [html|]; js_run; reflexivity. }
  split; [exact Hpx|]. split.
  - subst w. rewrite main_calls. left. reflexivity.
  - rewrite Hpx, Math_min_pair. split.
    + apply min_step_not_above_right.
    + destruct (is_nan d) eqn:Hd; [reflexivity|].
      apply min_step_le_right; [exact Hd|reflexivity].
Qed.

End Claims.

(** ** The properties at work on the example page *)

Section Witnesses.

Import THREE Browser Main Sample.

Example literal_0_05 : lit 5 2 = S754_finite false 0x1999999999999A (-57).
Proof. vm_compute. reflexivity. Qed.

Example toFixed_rounds_half_up :
  (toFixed (lit 1234 2) 1, toFixed (lit 25 2) 1, toFixed (lit 25 1) 0,
   toFixed (lit 1005 3) 2, toFixed (SFopp (lit 4 2)) 1, toFixed neg_zero 0)
  = ("12.3", "0.3", "3", "1.00", "-0.0", "0")%string.
Proof. vm_compute. reflexivity. Qed.

Example throttle_percent_truncates :
  (throttle_percent (lit 999 3), throttle_percent (of_int 1),
   throttle_percent (S754_finite false (2 ^ 53 - 1) (-53)), throttle_percent neg_zero)
  = (99, 100, 99, 0).
Proof. vm_compute. reflexivity. Qed.

Example hud_text_cruise :
  hud_text Sample.cruise (lit 5 1)
  = ("Vel: 12.3 u/s<br>Throttle: 50%<br>Pitch/Bank: 6" ++ degree ++ " / -3" ++ degree)%string.
Proof. vm_compute. reflexivity. Qed.

Example late_frame_is_clamped :
  update_steps (calls_of (dispatch (EvAnimationFrame (lit 25 2))) Sample.page)
  = [lit 5 2].
Proof. vm_compute. reflexivity. Qed.

Example nan_height_is_grounded :
  Controller.height
    (@Controller.update Sample.lost (lit 16 3)
       (Controller.create controller_options))
  = of_int 2.
Proof. vm_compute. reflexivity. Qed.

Example dive_stops_at_min_height :
  Controller.height
    (controller (exec (dispatch (EvAnimationFrame (lit 16 3))) Sample.page))
  = of_int 2.
Proof. vm_compute. reflexivity. Qed.

Lemma animate_dt_clamped_witness :
  completion clock_getDelta Sample.late_page = Normal (lit 25 2) /\
  leb (of_int 0) (lit 25 2) = true /\
  update_steps (calls_of animate Sample.late_page) = [Math_min [lit 5 2; lit 25 2]] /\
  leb (Math_min [lit 5 2; lit 25 2]) (lit 5 2) = true.
Proof.
  split; [reflexivity|]. split; [reflexivity|].
  exact (animate_dt_clamped Sample.late_page (lit 25 2) eq_refl eq_refl).
Defined.

Lemma update_keeps_min_height_witness :
  Controller.options (Controller.create controller_options) = controller_options /\
  Controller.minY (Controller.options (Controller.create controller_options))
    = of_int 2 /\
  ltb (Controller.height
         (Controller.update (lit 16 3) (Controller.create controller_options)))
      (of_int 2) = false /\
  leb (of_int 2)
      (Controller.height
         (Controller.update (lit 16 3) (Controller.create controller_options)))
    = true.
Proof.
  split; [reflexivity|].
  exact (update_keeps_min_height (Controller.create controller_options) (lit 16 3)
           eq_refl).
Defined.

Lemma keyR_resets_to_takeoff_pose_witness :
  code {| code := "KeyR" |} = "KeyR"%string /\
  calls_of (keydown_handler {| code := "KeyR" |}) Sample.page
  = [Controller_setTransform startup_pose].
Proof.
  split; [reflexivity|].
  exact (proj1 (keyR_resets_to_takeoff_pose Sample.page {| code := "KeyR" |}
                  Sample.desktop None eq_refl)).
Defined.

Lemma updateHUD_content_witness :
  hudEl (boot Sample.desktop (Some EmptyString)) = Some EmptyString /\
  calls_of updateHUD (boot Sample.desktop (Some EmptyString))
  = [Controller_getStatus; Controller_getEnginePower;
     Element_setInnerHTML
       (hud_text
          (Controller.getStatus (Controller.create controller_options))
          (Controller.getEnginePower (Controller.create controller_options)))].
Proof.
  split; [reflexivity|].
  exact (proj1 (proj2 (updateHUD_content
                         (boot Sample.desktop (Some EmptyString)) EmptyString
                         eq_refl))).
Defined.


Lemma throttle_percent_range_witness :
  is_number (lit 5 1) = true /\
  leb (of_int 0) (lit 5 1) = true /\
  leb (lit 5 1) (of_int 1) = true /\
  0 <= throttle_percent (lit 5 1) <= 100.
Proof.
  split; [vm_compute; reflexivity|].
  split; [vm_compute; reflexivity|].
  split; [vm_compute; reflexivity|].
  apply (proj1 (throttle_percent_range (lit 5 1)
                  ltac:(vm_compute; reflexivity) ltac:(vm_compute; reflexivity)
                  ltac:(vm_compute; reflexivity))).
Defined.

Lemma resize_refits_camera_and_renderer_witness :
  Reachable Sample.page /\
  calls_of (dispatch (EvResize (of_int 800) (of_int 600) (of_int 1))) Sample.page
  = [Camera_updateProjectionMatrix; Renderer_setSize (of_int 800) (of_int 600)].
Proof.
  split; [exact (Reachable_start Sample.desktop (Some EmptyString))|].
  exact (proj2 (proj2 (proj2 (proj2
           (resize_refits_camera_and_renderer Sample.page (of_int 800) (of_int 600)
              (of_int 1)
              (Reachable_start Sample.desktop (Some EmptyString))))))).
Defined.

Lemma frame_updates_once_and_first_witness :
  Reachable Sample.page /\
  update_steps (calls_of (dispatch (EvAnimationFrame (lit 16 3))) Sample.page)
  = [Math_min [lit 5 2; lit 16 3]].
Proof.
  split; [exact (Reachable_start Sample.desktop (Some EmptyString))|].
  exact (proj1 (proj2
           (frame_updates_once_and_first Sample.page (lit 16 3)
              (Reachable_start Sample.desktop (Some EmptyString))))).
Defined.

Lemma other_keys_do_nothing_witness :
  code {| code := "KeyA" |} <> "KeyR"%string /\
  keydown_handler {| code := "KeyA" |} Sample.page = (Normal tt, Sample.page).
Proof.
  split; [discriminate|].
  apply (proj1 (other_keys_do_nothing Sample.page {| code := "KeyA" |}
                  ltac:(discriminate))).
Defined.

End Witnesses.

(** ** Further facts about the script *)

Module CoverageFacts.

Import THREE Browser Main.
Import NumberFacts ScriptFacts.

(** Only a number that is the same equals a finite number. *)
Lemma compare_Eq_finite (d : number) (s : bool) (m : positive) (e : Z) :
  SFcompare d (S754_finite s m e) = Some Eq -> d = S754_finite s m e.
Proof.
  destruct d as [sd|sd| |sd md ed]; simpl.
  - destruct s; discriminate.
  - destruct sd; discriminate.
  - discriminate.
  - destruct sd, s; try discriminate;
      destruct (ed ?= e) eqn:He; try discriminate;
      apply Z.compare_eq in He; subst ed; intros H; injection H as H.
    + apply (f_equal CompOpp) in H. rewrite CompOpp_involutive in H.
      simpl in H. apply Pos.compare_eq in H. subst md. reflexivity.
    + apply Pos.compare_eq in H. subst md. reflexivity.
Qed.

(** [Math.min(c, d)] for a finite [c], as a clamp of [d] from above. *)
Lemma Math_min_clamp (s : bool) (m : positive) (e : Z) (d : number) :
  Math_min [S754_finite s m e; d]
  = if is_nan d then NaN
    else if ltb (S754_finite s m e) d then S754_finite s m e else d.
Proof.
  rewrite Math_min_pair. unfold min_step. cbn [is_nan].
  destruct (is_nan d) eqn:Hd; [reflexivity|].
  assert (Hgen : (if ltb d (S754_finite s m e) then d else S754_finite s m e)
                 = if ltb (S754_finite s m e) d then S754_finite s m e else d).
  { unfold ltb, SFltb. rewrite (compare_swap d (S754_finite s m e)).
    destruct (SFcompare d (S754_finite s m e)) as [[ | | ]|] eqn:Hc;
      cbn [option_map CompOpp]; try reflexivity.
    - symmetry. apply compare_Eq_finite. exact Hc.
    - destruct d; simpl in *; try discriminate; destruct s0; discriminate. }
  destruct d as [[|]| | |]; exact Hgen.
Qed.


(** *** Texts without markup *)

Lemma markup_free_app (a b : string) :
  markup_free (a ++ b) = markup_free a && markup_free b.
Proof.
  induction a as [|c a IH]; simpl; [reflexivity|].
  rewrite IH, andb_assoc. reflexivity.
Qed.

Lemma markup_free_substring (n k : nat) (s : string) :
  markup_free s = true -> markup_free (substring n k s) = true.
Proof.
  revert n k. induction s as [|c s IH]; intros n k Hs.
  - destruct n, k; reflexivity.
  - simpl in Hs. apply andb_true_iff in Hs. destruct Hs as [Hc Hs].
    destruct n as [|n]; simpl.
    + destruct k as [|k]; [reflexivity|]. simpl. rewrite Hc. apply IH. exact Hs.
    + apply IH. exact Hs.
Qed.

Lemma markup_free_zeros (n : nat) : markup_free (zeros n) = true.
Proof. induction n as [|n IH]; simpl; [reflexivity|exact IH]. Qed.

Lemma markup_free_uint (d : Decimal.uint) :
  markup_free (DecimalString.NilEmpty.string_of_uint d) = true.
Proof. induction d; simpl; try reflexivity; assumption. Qed.

Lemma markup_free_digits (n : N) : markup_free (digits_of_N n) = true.
Proof.
  unfold digits_of_N, DecimalString.NilZero.string_of_uint.
  destruct (N.to_uint n); try reflexivity; apply markup_free_uint.
Qed.

Lemma markup_free_int32 (z : Z) : markup_free (string_of_int32 z) = true.
Proof.
  unfold string_of_int32, DecimalString.NilZero.string_of_int,
    DecimalString.NilZero.string_of_uint.
  destruct (Z.to_int z) as [d|d]; destruct d; try reflexivity;
    try apply markup_free_uint;
    change (markup_free (DecimalString.NilEmpty.string_of_uint ?u) = true);
    simpl; try reflexivity; apply markup_free_uint.
Qed.

Section WithEnvironment.

Context {host : Host} {dynamics : Controller.Dynamics}.

(** The digits of [toFixed], after the sign [pre]. *)
Lemma markup_free_fixed (pre : string) (u : number) (num den : Z) (f : nat) :
  (forall t, markup_free (Number_toString t) = true) ->
  markup_free pre = true ->
  markup_free
    (if 10 ^ 21 * den <=? num then (pre ++ Number_toString u)%string
     else
       let n := (2 * num * 10 ^ Z.of_nat f + den) / (2 * den) in
       let m := digits_of_N (Z.to_N n) in
       match f with
       | O => (pre ++ m)%string
       | _ =>
           let m := (zeros (S f - String.length m) ++ m)%string in
           let k := String.length m in
           (pre ++ substring 0 (k - f) m ++ "." ++ substring (k - f) f m)%string
       end) = true.
Proof.
  intros Hhost Hpre. destruct (10 ^ 21 * den <=? num).
  - rewrite markup_free_app, Hpre, Hhost. reflexivity.
  - cbv zeta. destruct f as [|f].
    + rewrite markup_free_app, Hpre, markup_free_digits. reflexivity.
    + rewrite !markup_free_app, Hpre.
      rewrite !markup_free_substring
        by (rewrite markup_free_app, markup_free_zeros, markup_free_digits;
            reflexivity).
      reflexivity.
Qed.

Lemma markup_free_toFixed (v : number) (f : nat) :
  (forall t, markup_free (Number_toString t) = true) ->
  markup_free (toFixed v f) = true.
Proof.
  intros Hhost. unfold toFixed.
  destruct v as [s|[|]| |[|] m e]; try reflexivity;
    destruct (magnitude _) as [num den];
    apply markup_free_fixed; try exact Hhost; reflexivity.
Qed.

(** The steps handed to [update] in one run of [animate]. *)
Lemma animate_update_steps (w : World) (delta : number) :
  completion clock_getDelta w = Normal delta ->
  update_steps (calls_of animate w) = [Math_min [lit 5 2; delta]].
Proof.
  intros Hdelta. destruct w as [win ren sc cam ctl hud [run el] ls fr cs].
  js_run. destruct run; injection Hdelta as <-;
    destruct hud as [html|]; new_calls; reflexivity.
Qed.

(** The camera and the renderer are kept fitted to the window. *)
Lemma reachable_fit (w : World) :
  Reachable w ->
  fov (camera w) = of_int 60 /\
  near (camera w) = lit 1 1 /\
  far (camera w) = of_int 10000 /\
  aspect (camera w) = div (innerWidth (window w)) (innerHeight (window w)) /\
  projectionMatrix (camera w) = frustum (camera w) /\
  size (renderer w) = (innerWidth (window w), innerHeight (window w)).
Proof.
  induction 1 as [win hud|w ev Hw IH].
  - destruct hud as [html|]; js_run; repeat split; reflexivity.
  - destruct (reachable_invariant w Hw) as (Hls & Hfr & _).
    destruct w as [win ren sc cam ctl hud [run el] ls fr cs].
    cbn in Hls, Hfr. subst ls fr. clear Hw.
    destruct IH as (Hfov & Hnear & Hfar & Hasp & Hproj & Hsize).
    cbn [camera renderer window] in Hfov, Hnear, Hfar, Hasp, Hproj, Hsize.
    destruct ev as [wd ht dpr|e|seconds]; js_run; js_listeners.
    + destruct cam as [fv a n f pm mt tg]. cbn in Hfov, Hnear, Hfar.
      subst fv n f.
      repeat match goal with |- _ /\ _ => split end; reflexivity.
    + destruct (String.eqb (code e) "KeyR"); cbn;
        repeat match goal with |- _ /\ _ => split end; assumption.
    + destruct run, hud as [html|]; cbn;
        repeat match goal with |- _ /\ _ => split end; assumption.
Qed.


Lemma after_reachable (evs : list BrowserEvent) (w : World) :
  Reachable w -> Reachable (after evs w).
Proof.
  revert w. induction evs as [|ev evs IH]; intros w Hw; simpl.
  - exact Hw.
  - apply IH. apply Reachable_step. exact Hw.
Qed.


End WithEnvironment.

End CoverageFacts.

(** ** Further properties of the script *)

Section Coverage.

Import THREE Browser Main.
Import NumberFacts ScriptFacts CoverageFacts.

Context {host : Host} {dynamics : Controller.Dynamics}.

(** X1. At any time the camera and the renderer fit the window: the aspect
    is [innerWidth / innerHeight], the projection matrix is the one of a
    60 degree lens with this aspect between 0.1 and 10000, and the renderer
    has the size of the window. *)
Theorem camera_and_renderer_fit_window (w : World) :
  Reachable w ->
  let ratio := div (innerWidth (window w)) (innerHeight (window w)) in
  aspect (camera w) = ratio /\
  projectionMatrix (camera w)
    = {| f_fov := of_int 60; f_aspect := ratio;
         f_near := lit 1 1; f_far := of_int 10000 |} /\
  size (renderer w) = (innerWidth (window w), innerHeight (window w)).
Proof.
  intros Hw ratio. subst ratio.
  destruct (reachable_fit w Hw) as (Hfov & Hnear & Hfar & Hasp & Hproj & Hsize).
  split; [exact Hasp|]. split; [|exact Hsize].
  rewrite Hproj. unfold frustum. rewrite Hfov, Hnear, Hfar, Hasp. reflexivity.
Qed.

(** X2. At any time exactly one run of [animate] is requested, and the
    listeners are the resize and the keydown callbacks of the script, each
    registered once: no callback starts a second loop, stops the loop, or
    registers a listener. *)
Theorem one_loop_two_listeners (w : World) :
  Reachable w ->
  frame_requests w = [CbAnimate] /\
  listeners w = [("resize"%string, CbResize); ("keydown"%string, CbKeydown)].
Proof.
  intros Hw. destruct (reachable_invariant w Hw) as (Hls & Hfr & _).
  split; assumption.
Qed.

(** X3. The step handed to [update] is the answer [delta] of the clock
    itself when it is at most 0.05 (zero and negative answers included),
    0.05 when it is larger, and NaN when it is NaN: the clamp is one-sided
    and lets NaN through. *)
Theorem animate_dt_cases (w : World) (delta : number) :
  completion clock_getDelta w = Normal delta ->
  update_steps (calls_of animate w)
  = [if is_nan delta then NaN
     else if ltb (lit 5 2) delta then lit 5 2 else delta].
Proof.
  intros Hdelta. rewrite (animate_update_steps w delta Hdelta).
  change (lit 5 2) with (S754_finite false 7205759403792794 (-57)).
  rewrite Math_min_clamp. reflexivity.
Qed.


(** X5. What [updateHUD] assigns to [innerHTML] is three texts joined by
    two [<br>], and none of the three holds a [<], a [>] or a [&], whatever
    the numbers of the controller are (a host whose [Number::toString]
    prints no such character being given). *)
Theorem hud_is_three_plain_lines (w : World) (old : string) :
  (forall t, markup_free (Number_toString t) = true) ->
  hudEl w = Some old ->
  exists l1 l2 l3,
    hudEl (exec updateHUD w) = Some (l1 ++ "<br>" ++ l2 ++ "<br>" ++ l3)%string /\
    markup_free l1 = true /\ markup_free l2 = true /\ markup_free l3 = true.
Proof.
  intros Hhost Hhud.
  destruct w as [win ren sc cam ctl hd clk ls fr cs]. cbn in Hhud. subst hd.
  exists ("Vel: " ++ toFixed (Controller.speed (Controller.getStatus ctl)) 1
            ++ " u/s")%string,
         ("Throttle: "
            ++ string_of_int32 (throttle_percent (Controller.getEnginePower ctl))
            ++ "%")%string,
         ("Pitch/Bank: " ++ toFixed (Controller.pitchDeg (Controller.getStatus ctl)) 0
            ++ degree ++ " / "
            ++ toFixed (Controller.bankDeg (Controller.getStatus ctl)) 0
            ++ degree)%string.
  split.
  - js_run. rewrite hud_template. reflexivity.
  - rewrite !markup_free_app, !markup_free_toFixed, markup_free_int32 by exact Hhost.
    split; [reflexivity|]. split; reflexivity.
Qed.

(** X6. Each callback keeps to its own objects.  The resize callback
    changes the camera (its aspect and projection only) and the size of the
    renderer; the keydown callback changes the controller; a frame changes
    the controller, the HUD and the clock.  None of them touches anything
    else: not the window, the scene, the listeners; resizing and keys leave
    the pending frame request alone, and a frame leaves a missing HUD element
    missing. *)
Theorem callbacks_keep_to_their_objects :
  (forall w, let w' := exec resize_handler w in
     window w' = window w /\ scene w' = scene w /\
     controller w' = controller w /\ hudEl w' = hudEl w /\ clock w' = clock w /\
     listeners w' = listeners w /\ frame_requests w' = frame_requests w /\
     pixelRatio (renderer w') = pixelRatio (renderer w) /\
     fov (camera w') = fov (camera w) /\ near (camera w') = near (camera w) /\
     far (camera w') = far (camera w) /\ mount (camera w') = mount (camera w) /\
     target (camera w') = target (camera w)) /\
  (forall w e, let w' := exec (keydown_handler e) w in
     window w' = window w /\ scene w' = scene w /\
     renderer w' = renderer w /\ camera w' = camera w /\
     hudEl w' = hudEl w /\ clock w' = clock w /\
     listeners w' = listeners w /\ frame_requests w' = frame_requests w) /\
  (forall w, let w' := exec animate w in
     window w' = window w /\ scene w' = scene w /\
     renderer w' = renderer w /\ camera w' = camera w /\
     listeners w' = listeners w /\
     (hudEl w = None <-> hudEl w' = None)).
Proof.
  split; [|split].
  - intros [win ren sc cam ctl hud clk ls fr cs]. js_run.
    repeat match goal with |- _ /\ _ => split end; reflexivity.
  - intros [win ren sc cam ctl hud clk ls fr cs] e. js_run.
    destruct (String.eqb (code e) "KeyR");
      repeat match goal with |- _ /\ _ => split end; reflexivity.
  - intros [win ren sc cam ctl hud [run el] ls fr cs]. js_run.
    destruct run, hud as [html|]; cbn;
      repeat match goal with |- _ /\ _ => split end;
      first [reflexivity|split; intros H; discriminate H].
Qed.

(** X7. An engine power that is NaN or infinite shows as 0 percent: [|0]
    turns what is not a finite number into 0, and the HUD line reads
    ["Throttle: 0%"]. *)
Theorem throttle_of_non_finite_power (st : Controller.Status) (v : number) :
  is_nan v = true \/ (exists s, v = S754_infinity s) ->
  throttle_percent v = 0 /\
  nth 1 (hud_lines st v) EmptyString = "Throttle: 0%"%string.
Proof.
  intros Hv.
  assert (Hzero : throttle_percent v = 0).
  { destruct Hv as [Hnan|[s ->]].
    - destruct v; try discriminate. reflexivity.
    - destruct s; reflexivity. }
  split; [exact Hzero|]. unfold hud_lines. cbn [nth]. rewrite Hzero. reflexivity.
Qed.

(** X9. A page without a HUD element flies all the same: a frame calls
    [getDelta], [update], [render] and [requestAnimationFrame], and asks the
    controller nothing; and no event brings a HUD element about. *)
Theorem page_without_hud_still_flies (w : World) :
  Reachable w ->
  hudEl w = None ->
  (forall seconds,
     calls_of (dispatch (EvAnimationFrame seconds)) w
     = [Clock_getDelta; Controller_update (Math_min [lit 5 2; seconds]);
        Renderer_render; Window_requestAnimationFrame CbAnimate]) /\
  (forall ev, hudEl (exec (dispatch ev) w) = None).
Proof.
  intros Hw Hhud. destruct (reachable_invariant w Hw) as (Hls & Hfr & Hclk & _).
  clear Hw. destruct w as [win ren sc cam ctl hud [run el] ls fr cs].
  cbn in Hls, Hfr, Hclk, Hhud. subst ls fr run hud. split.
  - intros seconds. js_run. new_calls. reflexivity.
  - intros [wd ht dpr|e|seconds]; js_run; js_listeners; try reflexivity.
    destruct (String.eqb (code e) "KeyR"); reflexivity.
Qed.

End Coverage.

(** ** The further properties at work on the example page *)

Section CoverageWitnesses.

Import THREE Browser Main Sample.

Example truncated_percent_can_fall_short :
  mul (lit 29 2) (of_int 100) = S754_finite false 0x1CFFFFFFFFFFFF (-48) /\
  throttle_percent (lit 29 2) = 28.
Proof. vm_compute. split; reflexivity. Qed.

Lemma camera_and_renderer_fit_window_witness :
  Reachable Sample.page /\
  size (renderer Sample.page)
  = (innerWidth (window Sample.page), innerHeight (window Sample.page)).
Proof.
  split; [exact (Reachable_start Sample.desktop (Some EmptyString))|].
  exact (proj2 (proj2 (camera_and_renderer_fit_window Sample.page
                         (Reachable_start Sample.desktop (Some EmptyString))))).
Defined.

Lemma one_loop_two_listeners_witness :
  Reachable Sample.page /\ frame_requests Sample.page = [CbAnimate].
Proof.
  split; [exact (Reachable_start Sample.desktop (Some EmptyString))|].
  exact (proj1 (one_loop_two_listeners Sample.page
                  (Reachable_start Sample.desktop (Some EmptyString)))).
Defined.

Lemma animate_dt_cases_witness :
  completion clock_getDelta Sample.late_page = Normal (lit 25 2) /\
  update_steps (calls_of animate Sample.late_page)
  = [if is_nan (lit 25 2) then NaN
     else if ltb (lit 5 2) (lit 25 2) then lit 5 2 else lit 25 2].
Proof.
  split; [reflexivity|].
  exact (animate_dt_cases Sample.late_page (lit 25 2) eq_refl).
Defined.

Example pixel_ratio_does_not_follow_the_window :
  let w := after [EvResize (of_int 800) (of_int 600) (of_int 1)] Sample.page in
  devicePixelRatio (window w) = of_int 1 /\ pixelRatio (renderer w) = of_int 2.
Proof. vm_compute. split; reflexivity. Qed.

Lemma hud_is_three_plain_lines_witness :
  (forall t, markup_free (Number_toString t) = true) /\
  hudEl (boot Sample.desktop (Some EmptyString)) = Some EmptyString /\
  exists l1 l2 l3,
    hudEl (exec updateHUD (boot Sample.desktop (Some EmptyString)))
    = Some (l1 ++ "<br>" ++ l2 ++ "<br>" ++ l3)%string /\
    markup_free l1 = true /\ markup_free l2 = true /\ markup_free l3 = true.
Proof.
  split; [intros t; reflexivity|]. split; [reflexivity|].
  exact (hud_is_three_plain_lines (boot Sample.desktop (Some EmptyString)) EmptyString
           (fun t => eq_refl) eq_refl).
Defined.

Lemma throttle_of_non_finite_power_witness :
  (is_nan NaN = true \/ (exists s, NaN = S754_infinity s)) /\
  throttle_percent NaN = 0.
Proof.
  split; [left; reflexivity|].
  exact (proj1 (throttle_of_non_finite_power Sample.cruise NaN (or_introl eq_refl))).
Defined.

Lemma page_without_hud_still_flies_witness :
  Reachable Sample.bare_page /\ hudEl Sample.bare_page = None /\
  hudEl (exec (dispatch (EvKeydown {| code := "KeyR" |})) Sample.bare_page) = None.
Proof.
  split; [exact (Reachable_start Sample.desktop None)|].
  split; [vm_compute; reflexivity|].
  exact (proj2 (page_without_hud_still_flies Sample.bare_page
                  (Reachable_start Sample.desktop None)
                  ltac:(vm_compute; reflexivity))
           (EvKeydown {| code := "KeyR" |})).
Defined.

End CoverageWitnesses.
